(** * storex-typescript-generation: the TypeScript type generator

    A shallow embedding of the generator of [src/ts/index.ts] (the
    snapshot with relationships, reverse relationships and imports) and of
    the snapshot [src/unnamed/part_000] (flat declarations with
    [skipTypes]), followed by the properties of the generator.

    Conventions of the embedding:
    - a JavaScript string is a [string];
    - a type map ([fieldTypeMap], [DEFAULT_FIELD_TYPE_MAP]) is a plain
      object: a [gmap string string] of its own properties, read with
      [Js.get], which finds an own property first and then the names every
      plain object inherits ([constructor], [toString], ...); a name found
      in neither reads as [None], JavaScript's [undefined];
    - a value that is read and then only printed by a template literal is
      the text the literal prints for it; for an inherited member, which is
      a function or an object and truthy, that is the text Node prints;
    - [storageRegistry.collections], an object of the registry, which is
      not in the sources, is the [gmap string _] of what a read of it
      returns;
    - an object whose entries are enumerated ([fields],
      [reverseRelationshipsByAlias]) is the list of its entries in the
      order in which [Object.entries] and [Object.values] enumerate them:
      the integer-like names first, in ascending order, then the other
      names in insertion order;
    - a [Set<string>] is the list of its elements in insertion order;
    - [throw new Error(m)] is the [Throw] outcome carrying [m];
    - the option objects that the source extends on the way down
      ([{ ...options, collectionDefinition, fieldName }]) are passed as the
      options and the added properties, as separate arguments;
    - the mutable pieces (the generation context, the console) live in a
      [Store] threaded through the effectful functions. *)

From Stdlib Require Import String Ascii List Bool Arith Lia.
From stdpp Require Import base option gmap strings list.
Import ListNotations.

Local Open Scope string_scope.
Local Open Scope list_scope.

(** ** JavaScript helpers *)

Module Js.

(** The line feed, ['\n']. *)
Definition nl : string := String (ascii_of_nat 10) EmptyString.

(** [arr.join(sep)]. *)
Definition join (sep : string) (l : list string) : string := String.concat sep l.

(** Interpolation of a possibly undefined string in a template literal. *)
Definition tpl (v : option string) : string :=
  match v with
  | Some s => s
  | None => "undefined"
  end.

(** Truthiness of a string-or-undefined value: [!!v]. *)
Definition truthy (v : option string) : bool :=
  match v with
  | Some EmptyString => false
  | Some _ => true
  | None => false
  end.

(** [s.split('\n')], with the line being read kept in [cur]. *)
Fixpoint split_lines_from (cur : string) (s : string) : list string :=
  match s with
  | EmptyString => [cur]
  | String c rest =>
      if Ascii.eqb c (ascii_of_nat 10)
      then cur :: split_lines_from EmptyString rest
      else split_lines_from (cur +:+ String c EmptyString) rest
  end.

Definition split_lines (s : string) : list string := split_lines_from EmptyString s.

(** [arr.indexOf(x) === -1]. *)
Definition not_in_array (x : string) (l : list string) : bool :=
  negb (bool_decide (x ∈ l)).

(** [arr.includes(x)]. *)
Definition includes (l : list string) (x : string) : bool :=
  bool_decide (x ∈ l).

(** [set.add(x)] on a [Set<string>] kept in insertion order. *)
Definition set_add (x : string) (s : list string) : list string :=
  if bool_decide (x ∈ s) then s else s ++ [x].

(** The property names that every plain object inherits from
    [Object.prototype]. *)
Definition objectPrototypeNames : list string :=
  [ "constructor"; "hasOwnProperty"; "isPrototypeOf"; "propertyIsEnumerable";
    "toLocaleString"; "toString"; "valueOf"; "__proto__";
    "__defineGetter__"; "__defineSetter__"; "__lookupGetter__"; "__lookupSetter__" ].

(** What a template literal prints for the inherited member of that name:
    [__proto__] is [Object.prototype] itself, [constructor] is the function
    [Object], and the others are native functions of their own name. *)
Definition inheritedText (key : string) : string :=
  if String.eqb key "__proto__" then "[object Object]"
  else if String.eqb key "constructor" then "function Object() { [native code] }"
  else "function " +:+ key +:+ "() { [native code] }".

(** [obj[key]] on a plain object with the own properties [obj]: the own
    property, else the inherited member, else [undefined]. *)
Definition get (obj : gmap string string) (key : string) : option string :=
  match obj !! key with
  | Some value => Some value
  | None =>
      if bool_decide (key ∈ objectPrototypeNames)
      then Some (inheritedText key)
      else None
  end.

End Js.

(** ** Outcomes *)

(** The value thrown by [throw new Error(message)], and the [TypeError] the
    runtime raises when a property of [undefined] is read. *)
Inductive JsError : Type :=
  | Error (message : string)
  | TypeError (message : string).

Inductive Outcome (A : Type) : Type :=
  | Ok (a : A)
  | Throw (e : JsError).
Arguments Ok {A} a.
Arguments Throw {A} e.

Definition obind {A B} (r : Outcome A) (k : A -> Outcome B) : Outcome B :=
  match r with
  | Ok a => k a
  | Throw e => Throw e
  end.

(** [arr.map(f)] for a callback that may throw: left to right, stopping at
    the first exception. *)
Fixpoint map_throwing {A B} (f : A -> Outcome B) (l : list A) : Outcome (list B) :=
  match l with
  | [] => Ok []
  | x :: xs =>
      obind (f x) (fun y => obind (map_throwing f xs) (fun ys => Ok (y :: ys)))
  end.

(** ** Data model (the types imported from [@worldbrain/storex]) *)

Inductive AutoPkType : Type := PkString | PkInt | PkGeneric.

(** The strategy as the property key it is used as. None of the three keys
    is a name that objects inherit, so reading one of them in a plain object
    is the lookup among its own properties. *)
Definition autoPkKey (t : AutoPkType) : string :=
  match t with
  | PkString => "string"
  | PkInt => "int"
  | PkGeneric => "generic"
  end.

Record CollectionField : Type := {
  type : string;
  optional : bool;
}.

(** [pkIndex] is a field name or something else (a compound or relationship
    index); only [typeof pkIndex === 'string'] is ever tested. *)
Inductive PkIndex : Type :=
  | PkField (fieldName : string)
  | PkCompound (fieldNames : list string).

(** The properties read from a relationship for which
    [isChildOfRelationship] holds. *)
Record ChildOf : Type := {
  alias : string;
  reverseAlias : string;
  single : bool;
  targetCollection : string;
  sourceCollection : string;
}.

(** Modelled from the spec: [Relationship], [isChildOfRelationship] and
    [isConnectsRelationship] come from [@worldbrain/storex] and are not in
    the sources. A relationship is "child-of" or "connects"; an object on
    which both predicates are false is [OtherRelationship]. Of a "connects"
    relationship the generator reads [connects[0]] and [connects[1]] only. *)
Inductive Relationship : Type :=
  | ChildOfRelationship (r : ChildOf)
  | ConnectsRelationship (connects : string * string)
  | OtherRelationship.

Definition isChildOfRelationship (r : Relationship) : bool :=
  match r with ChildOfRelationship _ => true | _ => false end.

Definition isConnectsRelationship (r : Relationship) : bool :=
  match r with ConnectsRelationship _ => true | _ => false end.

(** [fields] is [Object.entries(collectionDefinition.fields)] and
    [reverseRelationshipsByAlias] the entries of that object, both in the
    order of enumeration (integer-like names first and ascending, then the
    others as inserted); [relationships] is the array, [[]] when absent. *)
Record CollectionDefinition : Type := {
  name : string;
  pkIndex : PkIndex;
  fields : list (string * CollectionField);
  relationships : list Relationship;
  reverseRelationshipsByAlias : list (string * Relationship);
}.

(** [ImportGenerator], reduced to the path it returns for a collection. *)
Definition ImportGenerator : Type := string -> string.

(** [GenerateTypescriptInterfacesOptions]. The snapshot of
    [src/ts/index.ts] has no [skipTypes] and never reads it. *)
Record Options : Type := {
  autoPkType : AutoPkType;
  fieldTypeMap : option (gmap string string);
  collections : list string;
  generateImport : option ImportGenerator;
  skipTypes : option (list string);
}.

Definition DEFAULT_FIELD_TYPE_MAP : gmap string string :=
  list_to_map
    [ ("string", "string");
      ("text", "string");
      ("json", "any");
      ("datetime", "Date");
      ("timestamp", "number");
      ("boolean", "boolean");
      ("float", "number");
      ("int", "number") ].

(** Modelled from the spec: [upperFirst] of [./utils] is not in the sources;
    the spec has "the collection name with its first character uppercased". *)
Definition upperFirst (s : string) : string :=
  match s with
  | EmptyString => EmptyString
  | String c rest =>
      let n := nat_of_ascii c in
      if Nat.leb 97 n && Nat.leb n 122
      then String (ascii_of_nat (n - 32)) rest
      else s
  end.

(** [options.autoPkType !== 'generic'] is [negb (isGeneric _)]. *)
Definition isGeneric (t : AutoPkType) : bool :=
  match t with PkGeneric => true | _ => false end.

(** [typeof pkIndex === 'string' && fieldName === pkIndex]. *)
Definition isPkField (pkIndex : PkIndex) (fieldName : string) : bool :=
  match pkIndex with
  | PkField pk => String.eqb fieldName pk
  | PkCompound _ => false
  end.

(** ** The type-map resolver, shared by both snapshots *)

(** [options.fieldTypeMap || DEFAULT_FIELD_TYPE_MAP]: an object is truthy,
    so a supplied map is used whole. *)
Definition effectiveTypeMap (options : Options) : gmap string string :=
  match fieldTypeMap options with
  | Some m => m
  | None => DEFAULT_FIELD_TYPE_MAP
  end.

Definition unresolvedTypeMessage (storexFieldType collectionName fieldName : string) : string :=
  "Could not translate type '" +:+ storexFieldType +:+ "' of field '" +:+
  collectionName +:+ "." +:+ fieldName +:+ "' to TypeScript type. " +:+
  "Please use the 'fieldTypeMap' option for custom fields".

(** [getTypescriptFieldType]; the result is [None] when the function returns
    [undefined]. *)
Definition getTypescriptFieldType
    (fieldDefinition : CollectionField) (options : Options)
    (collectionDefinition : CollectionDefinition) (fieldName : string)
    : Outcome (option string) :=
  let fieldTypeMap := effectiveTypeMap options in
  let storexFieldType := type fieldDefinition in
  if String.eqb storexFieldType "auto-pk" then
    Ok (Js.get fieldTypeMap (autoPkKey (autoPkType options)))
  else
    let typescriptFieldType := Js.get fieldTypeMap storexFieldType in
    if negb (Js.truthy typescriptFieldType) then
      Throw (Error (unresolvedTypeMessage storexFieldType
                      (name collectionDefinition) fieldName))
    else Ok typescriptFieldType.

(** ** Blocks and indentation, shared by both snapshots *)

(** [indent]. *)
Definition indent (s : string) : string :=
  Js.join Js.nl (map (fun l => "    " +:+ l) (Js.split_lines s)).

(** [inIndentedBlock]; [None] is the [null] returned for no lines. *)
Definition inIndentedBlock (bodyLines : list string) : option string :=
  match bodyLines with
  | [] => None
  | _ => Some ("{" +:+ Js.nl +:+ indent (Js.join Js.nl bodyLines) +:+ Js.nl +:+ "}")
  end.

(** [lines.filter(line => !!line)] on lines that may be [null]. *)
Definition keepLines (lines : list (option string)) : list string :=
  omap (fun line => if Js.truthy line then line else None) lines.

(** [...(block ? [block] : [])]. *)
Definition blockIfAny (block : option string) : list string :=
  keepLines [block].

(** ** The mutable world of one run *)

(** What a run can read and write: the registry's collections, the
    generation context's [referencedImports], and the lines written with
    [console.warn]. *)
Record Store : Type := {
  registry : gmap string CollectionDefinition;
  referencedImports : list string;
  console : list string;
}.

Definition M (A : Type) : Type := Store -> Outcome A * Store.

Definition ret {A} (a : A) : M A := fun s => (Ok a, s).

Definition bind {A B} (m : M A) (k : A -> M B) : M B :=
  fun s =>
    match m s with
    | (Ok a, s') => k a s'
    | (Throw e, s') => (Throw e, s')
    end.

Definition lift {A} (r : Outcome A) : M A := fun s => (r, s).

Definition throw {A} (e : JsError) : M A := fun s => (Throw e, s).

Notation "'do!' x <- m ; k" := (bind m (fun x => k))
  (at level 10, x name, m at level 100, k at level 200).

(** [context.referencedImports.add(collectionName)]. *)
Definition addReferencedImport (collectionName : string) : M unit :=
  fun s =>
    (Ok tt, {| registry := registry s;
               referencedImports := Js.set_add collectionName (referencedImports s);
               console := console s |}).

(** [{ referencedImports: new Set() }]. *)
Definition newContext : M unit :=
  fun s =>
    (Ok tt, {| registry := registry s;
               referencedImports := [];
               console := console s |}).

(** [console.warn(line)]. *)
Definition consoleWarn (line : string) : M unit :=
  fun s =>
    (Ok tt, {| registry := registry s;
               referencedImports := referencedImports s;
               console := console s ++ [line] |}).

(** [storageRegistry.collections[collectionName]]. *)
Definition readCollection (collectionName : string) : M (option CollectionDefinition) :=
  fun s => (Ok (registry s !! collectionName), s).

Definition readReferencedImports : M (list string) :=
  fun s => (Ok (referencedImports s), s).

(** [arr.map(f)] for an effectful callback. *)
Fixpoint mapM {A B} (f : A -> M B) (l : list A) : M (list B) :=
  match l with
  | [] => ret []
  | x :: xs => do! y <- f x; do! ys <- mapM f xs; ret (y :: ys)
  end.

(** ** The generator of [src/ts/index.ts] *)

Module TsIndex.

(** [generateTypescriptOptionalPk]. The message interpolates the collection
    object itself, which prints as [[object Object]]. *)
Definition generateTypescriptOptionalPk
    (collectionDefinition : CollectionDefinition) (options : Options)
    : Outcome string :=
  match pkIndex collectionDefinition with
  | PkField pkIndex =>
      let pkType :=
        if negb (isGeneric (autoPkType options))
        then DEFAULT_FIELD_TYPE_MAP !! autoPkKey (autoPkType options)
        else Some "number | string" in
      Ok ("( WithPk extends true ? { " +:+ pkIndex +:+ " : " +:+ Js.tpl pkType +:+ " } : {} )")
  | PkCompound _ =>
      Throw (Error "Unsupported pkIndex found in collection [object Object]")
  end.

Definition quoted (s : string) : string := "'" +:+ s +:+ "'".

(** The first loop of [generateTypescriptInterfaceParameters], over the
    relationships still to visit, with the array built so far. *)
Fixpoint relationshipFieldsLoop (collectionName : string)
    (todo : list Relationship) (relationshipFields : list string)
    : M (list string) :=
  match todo with
  | [] => ret relationshipFields
  | ChildOfRelationship relationship :: rest =>
      do! _ <- addReferencedImport (targetCollection relationship);
      relationshipFieldsLoop collectionName rest
        (relationshipFields ++ [quoted (alias relationship)])
  | ConnectsRelationship _ :: rest =>
      do! _ <- consoleWarn
        ("Warning: 'connects' relationships are not supported yet, skipping one in collection "
           +:+ collectionName);
      relationshipFieldsLoop collectionName rest relationshipFields
  | OtherRelationship :: _ =>
      throw (Error ("Unsupported relationship type detected in collection "
                      +:+ collectionName))
  end.

(** The second loop, over [Object.values(reverseRelationshipsByAlias)]. *)
Fixpoint reverseRelationshipFieldsLoop (collectionName : string)
    (todo : list Relationship) (reverseRelationshipFields : list string)
    : M (list string) :=
  match todo with
  | [] => ret reverseRelationshipFields
  | ChildOfRelationship reverseRelationship :: rest =>
      do! _ <- addReferencedImport (sourceCollection reverseRelationship);
      reverseRelationshipFieldsLoop collectionName rest
        (reverseRelationshipFields ++ [quoted (reverseAlias reverseRelationship)])
  | ConnectsRelationship connects :: rest =>
      do! _ <- consoleWarn
        ("Warning: 'connects' reverse relationships are not supported yet, skipping one in collection "
           +:+ collectionName +:+ " " +:+
         "(" +:+ fst connects +:+ " <-> " +:+ snd connects +:+ ")");
      reverseRelationshipFieldsLoop collectionName rest reverseRelationshipFields
  | OtherRelationship :: _ =>
      throw (Error ("Unsupported reverse relationship type detected in collection "
                      +:+ collectionName +:+ " "))
  end.

Definition isEmpty {A} (l : list A) : bool :=
  match l with [] => true | _ => false end.

(** [generateTypescriptInterfaceParameters]. *)
Definition generateTypescriptInterfaceParameters
    (collectionDefinition : CollectionDefinition) (options : Options)
    : M string :=
  if isEmpty (relationships collectionDefinition) &&
     isEmpty (reverseRelationshipsByAlias collectionDefinition)
  then ret "<WithPk extends boolean = true>"
  else
    do! relationshipFields <-
      relationshipFieldsLoop (name collectionDefinition)
        (relationships collectionDefinition) [];
    let relationshipFields := relationshipFields ++ ["null"] in
    do! reverseRelationshipFields <-
      reverseRelationshipFieldsLoop (name collectionDefinition)
        (map snd (reverseRelationshipsByAlias collectionDefinition)) [];
    let reverseRelationshipFields := reverseRelationshipFields ++ ["null"] in
    ret ("<" +:+
         Js.join ", "
           ([ "WithPk extends boolean = true";
              "Relationships extends " +:+ Js.join " | " relationshipFields +:+ " = null" ] ++
            (if Nat.ltb 1 (length reverseRelationshipFields)
             then [ "ReverseRelationships extends " +:+
                    Js.join " | " reverseRelationshipFields +:+ " = null" ]
             else []))
         +:+ ">").

(** [generateTypescriptField]; [None] is the [null] of an omitted field. *)
Definition generateTypescriptField
    (fieldDefinition : CollectionField) (options : Options)
    (collectionDefinition : CollectionDefinition) (fieldName : string)
    : Outcome (option string) :=
  if String.eqb (type fieldDefinition) "foreign-key" then Ok None
  else if isPkField (pkIndex collectionDefinition) fieldName then Ok None
  else
    let optional := if optional fieldDefinition then "?" else "" in
    obind (getTypescriptFieldType fieldDefinition options collectionDefinition fieldName)
      (fun t => Ok (Some (fieldName +:+ optional +:+ " : " +:+ Js.tpl t))).

(** [generateTypescriptRelationship]. *)
Definition generateTypescriptRelationship
    (relationship : Relationship) (options : Options)
    (collectionDefinition : CollectionDefinition)
    : Outcome (option string) :=
  match relationship with
  | ChildOfRelationship relationship =>
      let condition := quoted (alias relationship) +:+ " extends Relationships" in
      let targetCollectionIdentifier := upperFirst (targetCollection relationship) in
      let autoPkType := DEFAULT_FIELD_TYPE_MAP !! autoPkKey (autoPkType options) in
      Ok (Some (alias relationship +:+ " : " +:+ condition +:+ " ? " +:+
                targetCollectionIdentifier +:+ " : " +:+ Js.tpl autoPkType))
  | ConnectsRelationship _ => Ok None
  | OtherRelationship =>
      Throw (Error ("Unsupported relationship type detected in collection "
                      +:+ name collectionDefinition))
  end.

(** [generateTypescriptReverseRelationship]. *)
Definition generateTypescriptReverseRelationship
    (reverseRelationship : Relationship) (options : Options)
    (collectionDefinition : CollectionDefinition)
    : Outcome (option string) :=
  match reverseRelationship with
  | ChildOfRelationship reverseRelationship =>
      let alias := reverseAlias reverseRelationship in
      let sourceCollectionIdentifier := upperFirst (sourceCollection reverseRelationship) in
      let suffix := if single reverseRelationship then " | null" else "[]" in
      Ok (Some ("( " +:+ quoted alias +:+ " extends ReverseRelationships ? { " +:+
                alias +:+ " : " +:+ sourceCollectionIdentifier +:+ suffix +:+ " } : {} )"))
  | ConnectsRelationship _ => Ok None
  | OtherRelationship =>
      Throw (Error ("Unsupported reverse relationship type detected in collection "
                      +:+ name collectionDefinition))
  end.

(** One import statement, with its trailing blank. *)
Definition importStatement (generateImport : ImportGenerator) (collectionName : string)
    : string :=
  "import { " +:+ upperFirst collectionName +:+ " } from '" +:+
  generateImport collectionName +:+ "' ".

(** [generateTypescriptImports]; [None] is [null]. *)
Definition generateTypescriptImports
    (collections_ : list string) (options : Options) : option string :=
  match generateImport options with
  | None => None
  | Some generateImport =>
      if isEmpty collections_ then None
      else
        Some (Js.join Js.nl
          (keepLines
             (map (fun collectionName =>
                     if Js.not_in_array collectionName (collections options)
                     then Some (importStatement generateImport collectionName)
                     else None)
                  collections_)))
  end.

(** [generateTypescriptInterface]. *)
Definition generateTypescriptInterface
    (collectionDefinition : CollectionDefinition) (options : Options)
    : M string :=
  do! pkLine <- lift (generateTypescriptOptionalPk collectionDefinition options);
  do! fieldLines <- lift (map_throwing
    (fun pair => generateTypescriptField (snd pair) options collectionDefinition (fst pair))
    (fields collectionDefinition));
  let fields := inIndentedBlock (keepLines fieldLines) in
  do! relationshipLines <- lift (map_throwing
    (fun relationship => generateTypescriptRelationship relationship options collectionDefinition)
    (relationships collectionDefinition));
  let relationships := inIndentedBlock (keepLines relationshipLines) in
  do! reverseLines <- lift (map_throwing
    (fun reverseRelationship =>
       generateTypescriptReverseRelationship reverseRelationship options collectionDefinition)
    (map snd (reverseRelationshipsByAlias collectionDefinition)));
  let reverseRelationships := keepLines reverseLines in
  let body :=
    Js.join (" &" +:+ Js.nl)
      ([pkLine] ++ blockIfAny fields ++ blockIfAny relationships ++ reverseRelationships) in
  do! interfaceParameters <-
    generateTypescriptInterfaceParameters collectionDefinition options;
  let firstLine :=
    "export type " +:+ upperFirst (name collectionDefinition) +:+ interfaceParameters +:+ " =" in
  ret (firstLine +:+ Js.nl +:+ indent body).

(** The callback of [options.collections.map] in the batch driver. Reading
    [pkIndex] of an absent collection raises a [TypeError]. *)
Definition generateRequested (options : Options) (collectionName : string) : M string :=
  do! found <- readCollection collectionName;
  match found with
  | Some collectionDefinition => generateTypescriptInterface collectionDefinition options
  | None => throw (TypeError "Cannot read property 'pkIndex' of undefined")
  end.

(** [generateTypescriptInterfaces], the entry point. The registry is the
    one of the store. *)
Definition generateTypescriptInterfaces (options : Options) : M string :=
  do! _ <- newContext;
  do! declarations <- mapM (generateRequested options) (collections options);
  let interfaces := Js.join (Js.nl +:+ Js.nl) declarations +:+ Js.nl in
  do! referenced <- readReferencedImports;
  let imports := generateTypescriptImports referenced options in
  ret (Js.join (Js.nl +:+ Js.nl) (blockIfAny imports ++ [interfaces])).

End TsIndex.

(** ** The flat generator of [src/unnamed/part_000] *)

Module Part000.

(** [generateTypescriptOptionalPk]. *)
Definition generateTypescriptOptionalPk
    (collectionDefinition : CollectionDefinition) (options : Options)
    : Outcome string :=
  match pkIndex collectionDefinition with
  | PkField pkIndex =>
      let pkType :=
        if negb (isGeneric (autoPkType options))
        then DEFAULT_FIELD_TYPE_MAP !! autoPkKey (autoPkType options)
        else Some "number | string" in
      Ok ("{ " +:+ pkIndex +:+ " : " +:+ Js.tpl pkType +:+ " }")
  | PkCompound _ =>
      Throw (Error "Unsupported pkIndex found in collection [object Object]")
  end.

(** [options.skipTypes && options.skipTypes.includes(type)]. *)
Definition skipped (options : Options) (storexFieldType : string) : bool :=
  match skipTypes options with
  | Some skipTypes => Js.includes skipTypes storexFieldType
  | None => false
  end.

(** [generateTypescriptField]. *)
Definition generateTypescriptField
    (fieldDefinition : CollectionField) (options : Options)
    (collectionDefinition : CollectionDefinition) (fieldName : string)
    : Outcome (option string) :=
  if String.eqb (type fieldDefinition) "foreign-key" then Ok None
  else if skipped options (type fieldDefinition) then Ok None
  else if isPkField (pkIndex collectionDefinition) fieldName then Ok None
  else
    let optional := if optional fieldDefinition then "?" else "" in
    obind (getTypescriptFieldType fieldDefinition options collectionDefinition fieldName)
      (fun t => Ok (Some (fieldName +:+ optional +:+ " : " +:+ Js.tpl t))).

(** [generateTypescriptInterface]. *)
Definition generateTypescriptInterface
    (collectionDefinition : CollectionDefinition) (options : Options)
    : Outcome string :=
  obind (generateTypescriptOptionalPk collectionDefinition options) (fun pkLine =>
  obind (map_throwing
    (fun pair => generateTypescriptField (snd pair) options collectionDefinition (fst pair))
    (fields collectionDefinition)) (fun fieldLines =>
  let fields := inIndentedBlock (keepLines fieldLines) in
  let body := Js.join (" &" +:+ Js.nl) ([pkLine] ++ blockIfAny fields) in
  let firstLine := "export type " +:+ upperFirst (name collectionDefinition) +:+ " =" in
  Ok (firstLine +:+ Js.nl +:+ indent body))).

(** [generateTypescriptImports], the same text as in [src/ts/index.ts]. *)
Definition generateTypescriptImports
    (collections_ : list string) (options : Options) : option string :=
  match generateImport options with
  | None => None
  | Some generateImport =>
      if TsIndex.isEmpty collections_ then None
      else
        Some (Js.join Js.nl
          (keepLines
             (map (fun collectionName =>
                     if Js.not_in_array collectionName (collections options)
                     then Some (TsIndex.importStatement generateImport collectionName)
                     else None)
                  collections_)))
  end.

(** The callback of [options.collections.map] in the batch driver. *)
Definition generateRequested (options : Options) (collectionName : string) : M string :=
  do! found <- readCollection collectionName;
  match found with
  | Some collectionDefinition =>
      lift (generateTypescriptInterface collectionDefinition options)
  | None => throw (TypeError "Cannot read property 'pkIndex' of undefined")
  end.

(** [generateTypescriptInterfaces]: the context is created and read, and
    nothing in this snapshot writes to it. *)
Definition generateTypescriptInterfaces (options : Options) : M string :=
  do! _ <- newContext;
  do! declarations <- mapM (generateRequested options) (collections options);
  let interfaces := Js.join (Js.nl +:+ Js.nl) declarations +:+ Js.nl in
  do! referenced <- readReferencedImports;
  let imports := generateTypescriptImports referenced options in
  ret (Js.join (Js.nl +:+ Js.nl) (blockIfAny imports ++ [interfaces])).

End Part000.

(** ** Further JavaScript helpers *)

(** [arr.findIndex(p)]; [None] is the [-1] of no match. *)
Fixpoint arrayFindIndex {A} (p : A -> bool) (l : list A) : option nat :=
  match l with
  | [] => None
  | x :: rest => if p x then Some 0 else S <$> arrayFindIndex p rest
  end.

(** Whether a string has a line feed in it. *)
Fixpoint hasNewline (s : string) : bool :=
  match s with
  | EmptyString => false
  | String c rest => Ascii.eqb c (ascii_of_nat 10) || hasNewline rest
  end.

(** ** The first generator, the second text of [src/ts/index.ts] *)

Module Oldest.

Definition DEFAULT_FIELD_TYPE_MAP : gmap string string :=
  list_to_map
    [ ("string", "string");
      ("int", "number");
      ("bool", "boolean") ].

Definition unresolvedTypeMessage (storexFieldType collectionName fieldName : string) : string :=
  "Could not translate type '" +:+ storexFieldType +:+ "' of field '" +:+
  collectionName +:+ "." +:+ fieldName +:+ "' to TypeScript type." +:+
  "Please use the 'fieldTypeMap' option for custom fields".

(** [getTypescriptFieldType]. *)
Definition getTypescriptFieldType
    (fieldDefinition : CollectionField) (options : Options)
    (collectionName fieldName : string) : Outcome (option string) :=
  let fieldTypeMap :=
    match fieldTypeMap options with
    | Some m => m
    | None => DEFAULT_FIELD_TYPE_MAP
    end in
  let storexFieldType := type fieldDefinition in
  if String.eqb storexFieldType "auto-pk" then
    Ok (Js.get fieldTypeMap (autoPkKey (autoPkType options)))
  else
    let typescriptFieldType := Js.get fieldTypeMap storexFieldType in
    if negb (Js.truthy typescriptFieldType) then
      Throw (Error (unresolvedTypeMessage storexFieldType collectionName fieldName))
    else Ok typescriptFieldType.

(** [generateTypescriptField]: every field gets a line. *)
Definition generateTypescriptField
    (fieldDefinition : CollectionField) (options : Options)
    (collectionName fieldName : string) : Outcome string :=
  obind (getTypescriptFieldType fieldDefinition options collectionName fieldName)
    (fun t => Ok (fieldName +:+ " : " +:+ Js.tpl t)).

(** [sortFieldPairs]. An element of the result is [None] when it is
    [undefined]: with no field named as the primary key, [findIndex] gives
    [-1], [fields[-1]] is [undefined], and [splice(-1, 1)] removes the last
    element. *)
Definition sortFieldPairs
    (fields_ : list (string * CollectionField))
    (collectionDefinition : CollectionDefinition)
    : Outcome (list (option (string * CollectionField))) :=
  match pkIndex collectionDefinition with
  | PkCompound _ =>
      Throw (Error ("Unsupported pkIndex on collection '" +:+
                    name collectionDefinition +:+ "'"))
  | PkField pkIndex =>
      let fieldIndex := arrayFindIndex (fun pair => String.eqb (fst pair) pkIndex) fields_ in
      let fieldPair :=
        match fieldIndex with
        | Some i => fields_ !! i
        | None => None
        end in
      let sorted :=
        match fieldIndex with
        | Some i => delete i fields_
        | None => removelast fields_
        end in
      Ok (fieldPair :: map Some sorted)
  end.

(** The callback of [fieldPairs.map]: destructuring [undefined] raises a
    [TypeError]. *)
Definition fieldOfPair (options : Options) (collectionName : string)
    (pair : option (string * CollectionField)) : Outcome string :=
  match pair with
  | Some (fieldName, fieldDefinition) =>
      generateTypescriptField fieldDefinition options collectionName fieldName
  | None => Throw (TypeError "undefined is not iterable")
  end.

(** [generateTypescriptInterface]. *)
Definition generateTypescriptInterface
    (collectionDefinition : CollectionDefinition) (options : Options)
    : Outcome string :=
  obind (sortFieldPairs (fields collectionDefinition) collectionDefinition)
    (fun fieldPairs =>
  obind (map_throwing (fieldOfPair options (name collectionDefinition)) fieldPairs)
    (fun lines =>
  let body := Js.join Js.nl lines in
  Ok ("export interface " +:+ upperFirst (name collectionDefinition) +:+ " {" +:+ Js.nl +:+
      indent body +:+ Js.nl +:+ "}"))).

End Oldest.

(** ** The generator of [src/unnamed/part_001] *)

Module Part001.

(** [generateTypescriptOptionalPk]. *)
Definition generateTypescriptOptionalPk
    (collectionDefinition : CollectionDefinition) (options : Options)
    : Outcome string :=
  match pkIndex collectionDefinition with
  | PkField pkIndex =>
      let pkType := DEFAULT_FIELD_TYPE_MAP !! autoPkKey (autoPkType options) in
      Ok ("( WithPk extends true ? { " +:+ pkIndex +:+ " : " +:+ Js.tpl pkType +:+ " } : {} )")
  | PkCompound _ =>
      Throw (Error "Unsupported pkIndex found in collection [object Object]")
  end.

(** The loop of [generateTypescriptInterfaceParameters]. *)
Fixpoint relationshipFieldsLoop (collectionName : string)
    (todo : list Relationship) (relationshipFields : list string)
    : Outcome (list string) :=
  match todo with
  | [] => Ok relationshipFields
  | ChildOfRelationship relationship :: rest =>
      relationshipFieldsLoop collectionName rest
        (relationshipFields ++ [TsIndex.quoted (alias relationship)])
  | _ :: _ =>
      Throw (Error ("Unsupported relationship type detected in collection "
                      +:+ collectionName))
  end.

(** [generateTypescriptInterfaceParameters]. *)
Definition generateTypescriptInterfaceParameters
    (collectionDefinition : CollectionDefinition) (options : Options)
    : Outcome string :=
  if TsIndex.isEmpty (relationships collectionDefinition)
  then Ok "<WithPk extends boolean = true>"
  else
    obind (relationshipFieldsLoop (name collectionDefinition)
             (relationships collectionDefinition) [])
      (fun relationshipFields =>
         Ok ("<WithPk extends boolean = true, Relationships extends " +:+
             Js.join " | " relationshipFields +:+ " | null = null>")).

(** [generateTypescriptField], the same text as in [src/ts/index.ts]. *)
Definition generateTypescriptField
    (fieldDefinition : CollectionField) (options : Options)
    (collectionDefinition : CollectionDefinition) (fieldName : string)
    : Outcome (option string) :=
  if String.eqb (type fieldDefinition) "foreign-key" then Ok None
  else if isPkField (pkIndex collectionDefinition) fieldName then Ok None
  else
    let optional := if optional fieldDefinition then "?" else "" in
    obind (getTypescriptFieldType fieldDefinition options collectionDefinition fieldName)
      (fun t => Ok (Some (fieldName +:+ optional +:+ " : " +:+ Js.tpl t))).

(** [generateTypescriptRelationship]: anything but child-of throws. *)
Definition generateTypescriptRelationship
    (relationship : Relationship) (options : Options)
    (collectionDefinition : CollectionDefinition)
    : Outcome string :=
  match relationship with
  | ChildOfRelationship relationship =>
      let condition := TsIndex.quoted (alias relationship) +:+ " extends Relationships" in
      let targetCollectionIdentifier := upperFirst (targetCollection relationship) in
      let autoPkType := DEFAULT_FIELD_TYPE_MAP !! autoPkKey (autoPkType options) in
      Ok (alias relationship +:+ " : " +:+ condition +:+ " ? " +:+
          targetCollectionIdentifier +:+ " : " +:+ Js.tpl autoPkType)
  | _ =>
      Throw (Error ("Unsupported relationship type detected in collection "
                      +:+ name collectionDefinition))
  end.

(** [generateTypescriptInterface]: the field block is always there. *)
Definition generateTypescriptInterface
    (collectionDefinition : CollectionDefinition) (options : Options)
    : Outcome string :=
  obind (generateTypescriptOptionalPk collectionDefinition options) (fun pkLine =>
  obind (map_throwing
    (fun pair => generateTypescriptField (snd pair) options collectionDefinition (fst pair))
    (fields collectionDefinition)) (fun fieldLines =>
  let fieldLines := keepLines fieldLines in
  let fields := "{" +:+ Js.nl +:+ indent (Js.join Js.nl fieldLines) +:+ Js.nl +:+ "}" in
  obind (map_throwing
    (fun relationship => generateTypescriptRelationship relationship options collectionDefinition)
    (relationships collectionDefinition)) (fun relationshipLines =>
  let relationships :=
    if TsIndex.isEmpty relationshipLines then []
    else ["{" +:+ Js.nl +:+ indent (Js.join Js.nl relationshipLines) +:+ Js.nl +:+ "}"] in
  let body := Js.join (" &" +:+ Js.nl) ([pkLine; fields] ++ relationships) in
  obind (generateTypescriptInterfaceParameters collectionDefinition options)
    (fun interfaceParameters =>
  let firstLine :=
    "export type " +:+ upperFirst (name collectionDefinition) +:+ interfaceParameters +:+ " =" in
  Ok (firstLine +:+ Js.nl +:+ indent body))))).

End Part001.

(** ** Reference descriptions used in the statements *)

(** The resolver as a per-kind fallback: the override's entry for the kind
    when it has one, else the default table's entry, else the error. *)
Definition resolveWithPerKindFallback
    (fieldDefinition : CollectionField) (options : Options)
    (collectionDefinition : CollectionDefinition) (fieldName : string)
    : Outcome (option string) :=
  let kind := type fieldDefinition in
  match fieldTypeMap options ≫= (fun override => override !! kind) with
  | Some t => Ok (Some t)
  | None =>
      match DEFAULT_FIELD_TYPE_MAP !! kind with
      | Some t => Ok (Some t)
      | None =>
          Throw (Error (unresolvedTypeMessage kind (name collectionDefinition) fieldName))
      end
  end.

(** The representation of a primary key under each strategy. *)
Definition pkRepresentation (strategy : AutoPkType) : string :=
  match strategy with
  | PkString => "string"
  | PkInt => "number"
  | PkGeneric => "number | string"
  end.

(** The three omission rules of the field emitter. *)
Definition omittedField
    (fieldDefinition : CollectionField) (options : Options)
    (collectionDefinition : CollectionDefinition) (fieldName : string) : Prop :=
  type fieldDefinition = "foreign-key" \/
  pkIndex collectionDefinition = PkField fieldName \/
  (exists skipTypes_, skipTypes options = Some skipTypes_ /\
                      type fieldDefinition ∈ skipTypes_).

(** The declaration line of a field that is kept, for a resolved type. *)
Definition fieldLine (fieldName : string) (fieldDefinition : CollectionField)
    (resolved : option string) : string :=
  fieldName +:+ (if optional fieldDefinition then "?" else "") +:+ " : " +:+ Js.tpl resolved.

(** A relationship the generator knows: child-of or connects. *)
Definition supported (relationship : Relationship) : Prop :=
  relationship <> OtherRelationship.

Definition childOfOnly (l : list Relationship) : list ChildOf :=
  omap (fun relationship =>
          match relationship with
          | ChildOfRelationship r => Some r
          | _ => None
          end) l.

Definition connectsOnly (l : list Relationship) : list (string * string) :=
  omap (fun relationship =>
          match relationship with
          | ConnectsRelationship connects => Some connects
          | _ => None
          end) l.

Definition reverseRelationships (collectionDefinition : CollectionDefinition)
    : list Relationship :=
  map snd (reverseRelationshipsByAlias collectionDefinition).

(** The aliases over which the two expansion switches range. *)
Definition forwardAliases (collectionDefinition : CollectionDefinition) : list string :=
  map alias (childOfOnly (relationships collectionDefinition)).

Definition reverseAliases (collectionDefinition : CollectionDefinition) : list string :=
  map reverseAlias (childOfOnly (reverseRelationships collectionDefinition)).

(** A switch ranging over quoted aliases and [null], with default [null]. *)
Definition expansionSwitch (switch : string) (aliases : list string) : string :=
  switch +:+ " extends " +:+
  Js.join " | " (map TsIndex.quoted aliases ++ ["null"]) +:+ " = null".

(** The generic parameters a declaration header declares. *)
Definition declaredParameters (collectionDefinition : CollectionDefinition) : list string :=
  match relationships collectionDefinition,
        reverseRelationshipsByAlias collectionDefinition with
  | [], [] => [ "WithPk extends boolean = true" ]
  | _, _ =>
      [ "WithPk extends boolean = true";
        expansionSwitch "Relationships" (forwardAliases collectionDefinition) ] ++
      match reverseAliases collectionDefinition with
      | [] => []
      | aliases => [ expansionSwitch "ReverseRelationships" aliases ]
      end
  end.

(** The collection names a collection refers to: the targets of its forward
    child-of relationships, then the sources of its reverse ones. *)
Definition referencedBy (collectionDefinition : CollectionDefinition) : list string :=
  map targetCollection (childOfOnly (relationships collectionDefinition)) ++
  map sourceCollection (childOfOnly (reverseRelationships collectionDefinition)).

(** Adding names to a [Set<string>] one after the other. *)
Definition addAll (names : list string) (set : list string) : list string :=
  fold_left (fun set name => Js.set_add name set) names set.

(** The distinct elements of a list, each at its first occurrence. *)
Fixpoint firstOccurrences (names : list string) : list string :=
  match names with
  | [] => []
  | x :: rest => x :: filter (fun y => y <> x) (firstOccurrences rest)
  end.

(** The warnings written for the connects relationships of a collection. *)
Definition forwardWarnings (collectionName : string) (l : list Relationship) : list string :=
  map (fun _ : string * string =>
         "Warning: 'connects' relationships are not supported yet, skipping one in collection "
           +:+ collectionName)
      (connectsOnly l).

Definition reverseWarnings (collectionName : string) (l : list Relationship) : list string :=
  map (fun connects : string * string =>
         "Warning: 'connects' reverse relationships are not supported yet, skipping one in collection "
           +:+ collectionName +:+ " " +:+
         "(" +:+ fst connects +:+ " <-> " +:+ snd connects +:+ ")")
      (connectsOnly l).

(** The lines a forward and a reverse child-of relationship contribute. *)
Definition forwardLine (strategy : AutoPkType) (relationship : ChildOf) : string :=
  alias relationship +:+ " : " +:+
  (TsIndex.quoted (alias relationship) +:+ " extends Relationships") +:+ " ? " +:+
  upperFirst (targetCollection relationship) +:+ " : " +:+
  Js.tpl (DEFAULT_FIELD_TYPE_MAP !! autoPkKey strategy).

Definition reverseBlock (reverseRelationship : ChildOf) : string :=
  "( " +:+ TsIndex.quoted (reverseAlias reverseRelationship) +:+
  " extends ReverseRelationships ? { " +:+
  reverseAlias reverseRelationship +:+ " : " +:+
  upperFirst (sourceCollection reverseRelationship) +:+
  (if single reverseRelationship then " | null" else "[]") +:+ " } : {} )".

(** The declaration of a collection whose primary-key line and field lines
    are given: only child-of relationships contribute. *)
Definition declarationOf (options : Options) (collectionDefinition : CollectionDefinition)
    (pkLine : string) (fieldLines : list (option string)) : string :=
  ("export type " +:+ upperFirst (name collectionDefinition) +:+
   ("<" +:+ Js.join ", " (declaredParameters collectionDefinition) +:+ ">") +:+ " =")
  +:+ Js.nl +:+
  indent (Js.join (" &" +:+ Js.nl)
            ([pkLine] ++
             blockIfAny (inIndentedBlock (keepLines fieldLines)) ++
             blockIfAny (inIndentedBlock
                           (map (forwardLine (autoPkType options))
                                (childOfOnly (relationships collectionDefinition)))) ++
             map reverseBlock (childOfOnly (reverseRelationships collectionDefinition)))).

(** The field lines of a collection, as the assembler computes them. *)
Definition emittedFieldLines (options : Options) (collectionDefinition : CollectionDefinition)
    : Outcome (list (option string)) :=
  map_throwing
    (fun pair =>
       TsIndex.generateTypescriptField (snd pair) options collectionDefinition (fst pair))
    (fields collectionDefinition).

(** A computation that leaves the registry's collections as they were,
    whether it returns or throws. *)
Definition preservesRegistry {A} (m : M A) : Prop :=
  forall s, registry (snd (m s)) = registry s.

(** The store after the header of a collection has been generated. *)
Definition afterParameters (collectionDefinition : CollectionDefinition) (s : Store) : Store :=
  {| registry := registry s;
     referencedImports := addAll (referencedBy collectionDefinition) (referencedImports s);
     console := console s ++
                forwardWarnings (name collectionDefinition)
                  (relationships collectionDefinition) ++
                reverseWarnings (name collectionDefinition)
                  (reverseRelationships collectionDefinition) |}.

(** What makes the generation of one collection return: a field name as
    primary-key index, field kinds that resolve, and relationships that are
    child-of or connects. *)
Definition generable (options : Options) (collectionDefinition : CollectionDefinition)
    : Prop :=
  (exists pk, pkIndex collectionDefinition = PkField pk) /\
  (exists fieldLines, emittedFieldLines options collectionDefinition = Ok fieldLines) /\
  Forall supported (relationships collectionDefinition) /\
  Forall supported (reverseRelationships collectionDefinition).

(** The referenced names that need an import, and their statements. *)
Definition externalReferences (options : Options) (referenced : list string) : list string :=
  filter (fun collectionName => collectionName ∉ collections options) referenced.

Definition importStatements (options : Options) (referenced : list string) : list string :=
  match generateImport options with
  | Some generateImport =>
      map (TsIndex.importStatement generateImport) (externalReferences options referenced)
  | None => []
  end.

(** A field that the field emitter does not throw on: it is omitted, or its
    kind is [auto-pk], or reading its kind in the type map in use gives a
    truthy value (a non-empty own entry, or an inherited member). *)
Definition fieldResolves (options : Options) (collectionDefinition : CollectionDefinition)
    (pair : string * CollectionField) : Prop :=
  type (snd pair) = "foreign-key" \/
  pkIndex collectionDefinition = PkField (fst pair) \/
  type (snd pair) = "auto-pk" \/
  Js.truthy (Js.get (effectiveTypeMap options) (type (snd pair))) = true.

(** The warnings that the generation of a collection writes. *)
Definition warningsOf (collectionDefinition : CollectionDefinition) : list string :=
  forwardWarnings (name collectionDefinition) (relationships collectionDefinition) ++
  reverseWarnings (name collectionDefinition) (reverseRelationships collectionDefinition).

(** The options with the import resolver taken out. *)
Definition withoutResolver (options : Options) : Options :=
  {| autoPkType := autoPkType options;
     fieldTypeMap := fieldTypeMap options;
     collections := collections options;
     generateImport := None;
     skipTypes := skipTypes options |}.

(** ** Sample inputs, after the test suite *)

Definition field (storexFieldType : string) : CollectionField :=
  {| type := storexFieldType; optional := false |}.

Definition optionalField (storexFieldType : string) : CollectionField :=
  {| type := storexFieldType; optional := true |}.

Definition plainOptions (strategy : AutoPkType) (requested : list string) : Options :=
  {| autoPkType := strategy;
     fieldTypeMap := None;
     collections := requested;
     generateImport := None;
     skipTypes := None |}.

(** Options whose type map holds a single custom kind. *)
Definition mediaMapOptions : Options :=
  {| autoPkType := PkInt;
     fieldTypeMap := Some {[ "media" := "Media" ]};
     collections := ["test"];
     generateImport := None;
     skipTypes := None |}.

Definition skipMediaOptions : Options :=
  {| autoPkType := PkInt;
     fieldTypeMap := None;
     collections := ["test"];
     generateImport := None;
     skipTypes := Some ["media"] |}.

Definition testCollection : CollectionDefinition :=
  {| name := "test";
     pkIndex := PkField "id";
     fields := [("id", field "auto-pk"); ("fieldString", field "string")];
     relationships := [];
     reverseRelationshipsByAlias := [] |}.

(** The relationship [{ childOf: 'foo' }] of collection [bar], as the
    registry completes it. *)
Definition barChildOfFoo : ChildOf :=
  {| alias := "foo";
     reverseAlias := "bars";
     single := false;
     targetCollection := "foo";
     sourceCollection := "bar" |}.

(** The relationship [{ singleChildOf: 'foo' }] of collection [bar]. *)
Definition barSingleChildOfFoo : ChildOf :=
  {| alias := "foo";
     reverseAlias := "bar";
     single := true;
     targetCollection := "foo";
     sourceCollection := "bar" |}.

Definition fooCollection : CollectionDefinition :=
  {| name := "foo";
     pkIndex := PkField "id";
     fields := [("spam", field "string"); ("id", field "auto-pk")];
     relationships := [];
     reverseRelationshipsByAlias := [("bars", ChildOfRelationship barChildOfFoo)] |}.

Definition barCollection : CollectionDefinition :=
  {| name := "bar";
     pkIndex := PkField "id";
     fields := [("eggs", field "string"); ("id", field "auto-pk");
                ("fooRel", field "foreign-key")];
     relationships := [ChildOfRelationship barChildOfFoo];
     reverseRelationshipsByAlias := [] |}.

(** Options with an import resolver, for a batch that requests [bar] only. *)
Definition importOptions : Options :=
  {| autoPkType := PkInt;
     fieldTypeMap := None;
     collections := ["bar"];
     generateImport := Some (fun collectionName => "./" +:+ collectionName);
     skipTypes := None |}.

Definition sampleStore : Store :=
  {| registry := list_to_map [("foo", fooCollection); ("bar", barCollection)];
     referencedImports := [];
     console := [] |}.

(** A collection with a connects relationship next to a child-of one. *)
Definition tagLinkCollection : CollectionDefinition :=
  {| name := "tagLink";
     pkIndex := PkField "id";
     fields := [("id", field "auto-pk"); ("weight", field "int")];
     relationships := [ConnectsRelationship ("post", "tag");
                       ChildOfRelationship barChildOfFoo];
     reverseRelationshipsByAlias := [] |}.

(** A collection with a relationship of neither kind. *)
Definition brokenCollection : CollectionDefinition :=
  {| name := "broken";
     pkIndex := PkField "id";
     fields := [("id", field "auto-pk")];
     relationships := [OtherRelationship];
     reverseRelationshipsByAlias := [] |}.

(** A collection with a field of a custom kind and a relationship that is
    not supported. *)
Definition albumCollection : CollectionDefinition :=
  {| name := "album";
     pkIndex := PkField "id";
     fields := [("id", field "auto-pk"); ("title", field "string");
                ("cover", field "media"); ("sleeve", field "media")];
     relationships := [OtherRelationship];
     reverseRelationshipsByAlias := [] |}.

(** A collection with a compound primary key. *)
Definition userProfileCollection : CollectionDefinition :=
  {| name := "userProfile";
     pkIndex := PkCompound ["firstName"; "lastName"];
     fields := [("firstName", field "string"); ("lastName", field "string")];
     relationships := [];
     reverseRelationshipsByAlias := [] |}.

Example upperFirst_fooSomething : upperFirst "fooSomething" = "FooSomething".
Proof. reflexivity. Qed.

Example default_map_int : DEFAULT_FIELD_TYPE_MAP !! "int" = Some "number".
Proof. reflexivity. Qed.

Example default_map_generic : DEFAULT_FIELD_TYPE_MAP !! "generic" = None.
Proof. reflexivity. Qed.

(** ** Strings *)

Lemma append_assoc (a b c : string) : (a +:+ b) +:+ c = a +:+ (b +:+ c).
Proof.
  induction a as [|ch a IH]; [reflexivity|].
  change (String ch ((a +:+ b) +:+ c) = String ch (a +:+ (b +:+ c))).
  now rewrite IH.
Qed.

Lemma append_empty_r (a : string) : a +:+ "" = a.
Proof.
  induction a as [|ch a IH]; [reflexivity|].
  change (String ch (a +:+ "") = String ch a). now rewrite IH.
Qed.

(** ** The type-map resolver *)

Lemma eqb_auto_pk_false (kind : string) :
  kind <> "auto-pk" -> String.eqb kind "auto-pk" = false.
Proof. intros H. now apply String.eqb_neq. Qed.

Lemma truthy_spec (v : option string) :
  Js.truthy v = false <-> v = None \/ v = Some "".
Proof.
  destruct v as [[|c rest]|]; simpl; split; intros H; auto; try discriminate.
  - destruct H as [H|H]; discriminate H.
Qed.


Lemma inheritedText_truthy (key : string) :
  Js.truthy (Some (Js.inheritedText key)) = true.
Proof.
  unfold Js.inheritedText.
  destruct (String.eqb key "__proto__"); [reflexivity|].
  destruct (String.eqb key "constructor"); reflexivity.
Qed.

(** The three outcomes of a read in a plain object. *)
Lemma get_cases (obj : gmap string string) (key : string) :
  (exists value, obj !! key = Some value /\ Js.get obj key = Some value) \/
  (obj !! key = None /\ (key ∈ Js.objectPrototypeNames) /\
   Js.get obj key = Some (Js.inheritedText key)) \/
  (obj !! key = None /\ (key ∉ Js.objectPrototypeNames) /\ Js.get obj key = None).
Proof.
  unfold Js.get. destruct (obj !! key) as [value|].
  - left. now exists value.
  - destruct (bool_decide (key ∈ Js.objectPrototypeNames)) eqn:Hin.
    + apply bool_decide_eq_true in Hin. right. now left.
    + apply bool_decide_eq_false in Hin. right. now right.
Qed.

Lemma get_autoPkKey (obj : gmap string string) (strategy : AutoPkType) :
  Js.get obj (autoPkKey strategy) = obj !! autoPkKey strategy.
Proof.
  unfold Js.get. destruct (obj !! autoPkKey strategy); [reflexivity|].
  destruct strategy; reflexivity.
Qed.





(** ** The primary-key segment *)

(** C4: the type in the primary-key segment is [string] under the strategy
    [string], [number] under [int], and [number | string] under [generic],
    in the gated segment of [src/ts/index.ts] and in the plain one of
    [src/unnamed/part_000]. *)
Theorem primary_key_segment_type
    (collectionDefinition : CollectionDefinition) (options : Options) (pk : string) :
  pkIndex collectionDefinition = PkField pk ->
  TsIndex.generateTypescriptOptionalPk collectionDefinition options
    = Ok ("( WithPk extends true ? { " +:+ pk +:+ " : " +:+
          pkRepresentation (autoPkType options) +:+ " } : {} )") /\
  Part000.generateTypescriptOptionalPk collectionDefinition options
    = Ok ("{ " +:+ pk +:+ " : " +:+ pkRepresentation (autoPkType options) +:+ " }").
Proof.
  intros Hpk.
  unfold TsIndex.generateTypescriptOptionalPk, Part000.generateTypescriptOptionalPk.
  rewrite Hpk.
  destruct (autoPkType options); split; reflexivity.
Qed.

Lemma primary_key_segment_type_witness :
  TsIndex.generateTypescriptOptionalPk testCollection (plainOptions PkGeneric ["test"])
    = Ok "( WithPk extends true ? { id : number | string } : {} )" /\
  Part000.generateTypescriptOptionalPk testCollection (plainOptions PkGeneric ["test"])
    = Ok "{ id : number | string }".
Proof.
  apply (primary_key_segment_type testCollection (plainOptions PkGeneric ["test"]) "id").
  reflexivity.
Defined.

(** ** The field emitter *)

Lemma isPkField_true (pk : PkIndex) (fieldName : string) :
  isPkField pk fieldName = true <-> pk = PkField fieldName.
Proof.
  destruct pk as [p|ps]; simpl.
  - rewrite String.eqb_eq. split; intros H; congruence.
  - split; intros H; discriminate H.
Qed.

Lemma skipped_true (options : Options) (kind : string) :
  Part000.skipped options kind = true <->
  exists skipTypes_, skipTypes options = Some skipTypes_ /\ kind ∈ skipTypes_.
Proof.
  unfold Part000.skipped, Js.includes.
  destruct (skipTypes options) as [l|].
  - rewrite bool_decide_eq_true. split.
    + intros H. now exists l.
    + intros (l' & Hl & Hin). congruence.
  - split; [discriminate|]. intros (l' & Hl & _). discriminate Hl.
Qed.

(** C3: a field is omitted when its kind is [foreign-key], when its name is
    the primary-key field name, or when its kind is in [skipTypes];
    otherwise the emitter yields the one line [name : type], with [?] after
    the name exactly when the field is optional and with the type (or the
    exception) of the resolver. Without [skipTypes] the emitter of
    [src/ts/index.ts] is the same function. *)
Theorem field_emitter_rules
    (fieldDefinition : CollectionField) (options : Options)
    (collectionDefinition : CollectionDefinition) (fieldName : string) :
  (omittedField fieldDefinition options collectionDefinition fieldName ->
     Part000.generateTypescriptField fieldDefinition options collectionDefinition fieldName
       = Ok None) /\
  (~ omittedField fieldDefinition options collectionDefinition fieldName ->
     Part000.generateTypescriptField fieldDefinition options collectionDefinition fieldName
       = obind (getTypescriptFieldType fieldDefinition options collectionDefinition fieldName)
           (fun resolved => Ok (Some (fieldLine fieldName fieldDefinition resolved)))) /\
  (skipTypes options = None ->
     TsIndex.generateTypescriptField fieldDefinition options collectionDefinition fieldName
       = Part000.generateTypescriptField fieldDefinition options collectionDefinition fieldName).
Proof.
  unfold omittedField, Part000.generateTypescriptField, TsIndex.generateTypescriptField.
  destruct (String.eqb (type fieldDefinition) "foreign-key") eqn:Hfk.
  { repeat split; auto. intros Hno. exfalso. apply Hno. left. now apply String.eqb_eq. }
  apply String.eqb_neq in Hfk.
  destruct (Part000.skipped options (type fieldDefinition)) eqn:Hskip.
  { repeat split; auto.
    - intros Hno. exfalso. apply Hno. right. right. now apply skipped_true.
    - intros Hnone. unfold Part000.skipped in Hskip. rewrite Hnone in Hskip.
      discriminate Hskip. }
  destruct (isPkField (pkIndex collectionDefinition) fieldName) eqn:Hpk.
  { repeat split; auto. intros Hno. exfalso. apply Hno. right. left.
    now apply isPkField_true. }
  repeat split; auto.
  intros [H|[H|H]].
  - contradiction.
  - apply isPkField_true in H. congruence.
  - apply skipped_true in H. congruence.
Qed.

Lemma field_emitter_rules_witness :
  Part000.generateTypescriptField (field "media") skipMediaOptions testCollection "fieldText"
    = Ok None /\
  Part000.generateTypescriptField (optionalField "string") skipMediaOptions testCollection
    "fieldString" = Ok (Some "fieldString? : string").
Proof.
  destruct (field_emitter_rules (field "media") skipMediaOptions testCollection "fieldText")
    as (Homit & _ & _).
  destruct (field_emitter_rules (optionalField "string") skipMediaOptions testCollection
              "fieldString") as (_ & Hkeep & _).
  split.
  - apply Homit. right. right. exists ["media"]. split; [reflexivity|].
    apply list_elem_of_In. simpl. auto.
  - rewrite Hkeep; [reflexivity|].
    intros [H|[H|(l & Hl & Hin)]]; try discriminate.
    injection Hl as <-. apply list_elem_of_In in Hin. simpl in Hin.
    destruct Hin as [H|[]]. discriminate H.
Defined.

(** ** The relationship emitter *)

(** For the strategies [string] and [int] the scalar branch of a forward
    child-of relationship is the primary-key representation. *)
Lemma forward_relationship_scalar_branch
    (relationship : ChildOf) (options : Options)
    (collectionDefinition : CollectionDefinition) :
  autoPkType options <> PkGeneric ->
  TsIndex.generateTypescriptRelationship
    (ChildOfRelationship relationship) options collectionDefinition
    = Ok (Some (alias relationship +:+ " : " +:+ TsIndex.quoted (alias relationship) +:+
                " extends Relationships" +:+ " ? " +:+
                upperFirst (targetCollection relationship) +:+ " : " +:+
                pkRepresentation (autoPkType options))).
Proof.
  intros Hgen. unfold TsIndex.generateTypescriptRelationship.
  rewrite append_assoc.
  destruct (autoPkType options); [reflexivity | reflexivity | contradiction].
Qed.

(** C6, where the generator departs from it: under the strategy [generic]
    the primary-key segment has the type [number | string], but the scalar
    branch of the forward child-of field reads [undefined]. *)
Theorem forward_relationship_generic_undefined :
  TsIndex.generateTypescriptOptionalPk barCollection (plainOptions PkGeneric ["bar"])
    = Ok "( WithPk extends true ? { id : number | string } : {} )" /\
  TsIndex.generateTypescriptRelationship
    (ChildOfRelationship barChildOfFoo) (plainOptions PkGeneric ["bar"]) barCollection
    = Ok (Some "foo : 'foo' extends Relationships ? Foo : undefined") /\
  TsIndex.generateTypescriptRelationship
    (ChildOfRelationship barChildOfFoo) (plainOptions PkInt ["bar"]) barCollection
    = Ok (Some "foo : 'foo' extends Relationships ? Foo : number").
Proof. repeat split; reflexivity. Qed.

(** C7: a reverse child-of relationship yields the gated block with a field
    named after the reverse alias, of the source collection's type followed
    by [ | null] when [single] is set and by [[]] when it is not. *)
Theorem reverse_relationship_block
    (reverseRelationship : ChildOf) (options : Options)
    (collectionDefinition : CollectionDefinition) :
  TsIndex.generateTypescriptReverseRelationship
    (ChildOfRelationship reverseRelationship) options collectionDefinition
    = Ok (Some ("( " +:+ TsIndex.quoted (reverseAlias reverseRelationship) +:+
                " extends ReverseRelationships ? { " +:+
                reverseAlias reverseRelationship +:+ " : " +:+
                upperFirst (sourceCollection reverseRelationship) +:+
                (if single reverseRelationship then " | null" else "[]") +:+
                " } : {} )")).
Proof. reflexivity. Qed.

Example reverse_single : 
  TsIndex.generateTypescriptReverseRelationship
    (ChildOfRelationship barSingleChildOfFoo) (plainOptions PkInt ["foo"]) fooCollection
    = Ok (Some "( 'bar' extends ReverseRelationships ? { bar : Bar | null } : {} )").
Proof. reflexivity. Qed.

Example reverse_multiple : 
  TsIndex.generateTypescriptReverseRelationship
    (ChildOfRelationship barChildOfFoo) (plainOptions PkInt ["foo"]) fooCollection
    = Ok (Some "( 'bars' extends ReverseRelationships ? { bars : Bar[] } : {} )").
Proof. reflexivity. Qed.

(** ** The generic parameters of a declaration header *)

Lemma supported_or_other (l : list Relationship) :
  Forall supported l \/ In OtherRelationship l.
Proof.
  induction l as [|r l [IH|IH]].
  - left. constructor.
  - destruct r as [c|c|].
    + left. constructor; [discriminate | exact IH].
    + left. constructor; [discriminate | exact IH].
    + right. now left.
  - right. now right.
Qed.

Lemma relationshipFieldsLoop_run (collectionName : string) (l : list Relationship)
    (acc : list string) (s : Store) :
  Forall supported l ->
  TsIndex.relationshipFieldsLoop collectionName l acc s =
    (Ok (acc ++ map TsIndex.quoted (map alias (childOfOnly l))),
     {| registry := registry s;
        referencedImports :=
          addAll (map targetCollection (childOfOnly l)) (referencedImports s);
        console := console s ++ forwardWarnings collectionName l |}).
Proof.
  intros H. revert acc s.
  induction H as [|r l Hr Hl IH]; intros acc s.
  - simpl. unfold ret, forwardWarnings. simpl. rewrite !app_nil_r.
    destruct s; reflexivity.
  - destruct r as [c|c|].
    + simpl. unfold bind, addReferencedImport. rewrite IH. simpl.
      rewrite <- app_assoc. reflexivity.
    + simpl. unfold bind, consoleWarn. rewrite IH. simpl.
      unfold forwardWarnings. simpl. rewrite <- app_assoc. reflexivity.
    + now destruct Hr.
Qed.

Lemma reverseRelationshipFieldsLoop_run (collectionName : string) (l : list Relationship)
    (acc : list string) (s : Store) :
  Forall supported l ->
  TsIndex.reverseRelationshipFieldsLoop collectionName l acc s =
    (Ok (acc ++ map TsIndex.quoted (map reverseAlias (childOfOnly l))),
     {| registry := registry s;
        referencedImports :=
          addAll (map sourceCollection (childOfOnly l)) (referencedImports s);
        console := console s ++ reverseWarnings collectionName l |}).
Proof.
  intros H. revert acc s.
  induction H as [|r l Hr Hl IH]; intros acc s.
  - simpl. unfold ret, reverseWarnings. simpl. rewrite !app_nil_r.
    destruct s; reflexivity.
  - destruct r as [c|c|].
    + simpl. unfold bind, addReferencedImport. rewrite IH. simpl.
      rewrite <- app_assoc. reflexivity.
    + simpl. unfold bind, consoleWarn. rewrite IH. simpl.
      unfold reverseWarnings. simpl. rewrite <- app_assoc. reflexivity.
    + now destruct Hr.
Qed.

Lemma more_than_null (l : list string) :
  Nat.ltb 1 (length (l ++ ["null"])) = negb (TsIndex.isEmpty l).
Proof.
  destruct l as [|x l]; [reflexivity|].
  simpl. rewrite length_app. simpl. rewrite Nat.add_1_r. reflexivity.
Qed.

Lemma store_eta (s : Store) :
  {| registry := registry s;
     referencedImports := referencedImports s;
     console := console s |} = s.
Proof. now destruct s. Qed.

Lemma generateTypescriptInterfaceParameters_run
    (collectionDefinition : CollectionDefinition) (options : Options) (s : Store) :
  Forall supported (relationships collectionDefinition) ->
  Forall supported (reverseRelationships collectionDefinition) ->
  TsIndex.generateTypescriptInterfaceParameters collectionDefinition options s =
    (Ok ("<" +:+ Js.join ", " (declaredParameters collectionDefinition) +:+ ">"),
     afterParameters collectionDefinition s).
Proof.
  intros Hfwd Hrev.
  unfold TsIndex.generateTypescriptInterfaceParameters.
  destruct (TsIndex.isEmpty (relationships collectionDefinition) &&
            TsIndex.isEmpty (reverseRelationshipsByAlias collectionDefinition)) eqn:Hempty.
  - apply andb_true_iff in Hempty as [H1 H2].
    unfold afterParameters, declaredParameters, referencedBy, reverseRelationships.
    destruct (relationships collectionDefinition); [|discriminate H1].
    destruct (reverseRelationshipsByAlias collectionDefinition); [|discriminate H2].
    unfold ret, forwardWarnings, reverseWarnings. simpl. rewrite app_nil_r.
    now rewrite store_eta.
  - unfold bind. rewrite (relationshipFieldsLoop_run _ _ _ _ Hfwd).
    fold (reverseRelationships collectionDefinition).
    rewrite (reverseRelationshipFieldsLoop_run _ _ _ _ Hrev).
    unfold ret, afterParameters, referencedBy, addAll. simpl.
    rewrite fold_left_app, <- app_assoc. f_equal. f_equal.
    assert (Hdecl : declaredParameters collectionDefinition =
      [ "WithPk extends boolean = true";
        expansionSwitch "Relationships" (forwardAliases collectionDefinition) ] ++
      match reverseAliases collectionDefinition with
      | [] => []
      | aliases => [ expansionSwitch "ReverseRelationships" aliases ]
      end).
    { unfold declaredParameters.
      destruct (relationships collectionDefinition); [|reflexivity].
      destruct (reverseRelationshipsByAlias collectionDefinition); [discriminate Hempty|].
      reflexivity. }
    rewrite Hdecl, more_than_null. unfold reverseAliases, forwardAliases.
    destruct (childOfOnly (reverseRelationships collectionDefinition)) as [|r rs];
      reflexivity.
Qed.

(** C5: the header of a collection without forward and reverse relationships
    declares the primary-key switch alone; otherwise it declares, after it,
    the forward switch over the aliases of the child-of relationships and
    [null], default [null], and then, exactly when there is a reverse
    child-of relationship, the reverse switch over the reverse aliases and
    [null], default [null]. *)
Theorem interface_parameters_declared
    (collectionDefinition : CollectionDefinition) (options : Options) (s : Store) :
  Forall supported (relationships collectionDefinition) ->
  Forall supported (reverseRelationships collectionDefinition) ->
  fst (TsIndex.generateTypescriptInterfaceParameters collectionDefinition options s)
    = Ok ("<" +:+ Js.join ", " (declaredParameters collectionDefinition) +:+ ">") /\
  (relationships collectionDefinition = [] ->
   reverseRelationshipsByAlias collectionDefinition = [] ->
     declaredParameters collectionDefinition = [ "WithPk extends boolean = true" ]) /\
  (relationships collectionDefinition <> [] \/
   reverseRelationshipsByAlias collectionDefinition <> [] ->
     declaredParameters collectionDefinition =
       [ "WithPk extends boolean = true";
         "Relationships extends " +:+
           Js.join " | " (map TsIndex.quoted (forwardAliases collectionDefinition) ++ ["null"])
           +:+ " = null" ] ++
       (if TsIndex.isEmpty (childOfOnly (reverseRelationships collectionDefinition))
        then []
        else [ "ReverseRelationships extends " +:+
                 Js.join " | "
                   (map TsIndex.quoted (reverseAliases collectionDefinition) ++ ["null"])
                 +:+ " = null" ])).
Proof.
  intros Hfwd Hrev. split; [|split].
  - now rewrite generateTypescriptInterfaceParameters_run.
  - intros H1 H2. unfold declaredParameters. now rewrite H1, H2.
  - intros Hsome. unfold declaredParameters, reverseAliases.
    destruct (relationships collectionDefinition) as [|r rs] eqn:Hr.
    + destruct (reverseRelationshipsByAlias collectionDefinition) as [|p ps] eqn:Hp.
      * destruct Hsome as [H|H]; now destruct H.
      * destruct (childOfOnly (reverseRelationships collectionDefinition)); reflexivity.
    + destruct (childOfOnly (reverseRelationships collectionDefinition)); reflexivity.
Qed.

Lemma interface_parameters_declared_witness :
  fst (TsIndex.generateTypescriptInterfaceParameters fooCollection (plainOptions PkInt ["foo"])
         {| registry := ∅; referencedImports := []; console := [] |})
    = Ok ("<WithPk extends boolean = true, Relationships extends null = null, " +:+
          "ReverseRelationships extends 'bars' | null = null>").
Proof.
  assert (Hfwd : Forall supported (relationships fooCollection)) by constructor.
  assert (Hrev : Forall supported (reverseRelationships fooCollection)).
  { constructor; [discriminate | constructor]. }
  destruct (interface_parameters_declared fooCollection (plainOptions PkInt ["foo"])
              {| registry := ∅; referencedImports := []; console := [] |} Hfwd Hrev)
    as (Hrun & _ & _).
  rewrite Hrun. reflexivity.
Defined.

(** ** Connects and unsupported relationships *)

Lemma forwardLine_truthy (strategy : AutoPkType) (relationship : ChildOf) :
  Js.truthy (Some (forwardLine strategy relationship)) = true.
Proof. unfold forwardLine. destruct (alias relationship); reflexivity. Qed.

Lemma forward_lines_supported (options : Options)
    (collectionDefinition : CollectionDefinition) (l : list Relationship) :
  Forall supported l ->
  exists lines,
    map_throwing
      (fun relationship =>
         TsIndex.generateTypescriptRelationship relationship options collectionDefinition) l
      = Ok lines /\
    keepLines lines = map (forwardLine (autoPkType options)) (childOfOnly l).
Proof.
  induction 1 as [|r l Hr Hl (lines & Hmap & Hkeep)].
  - exists []. split; reflexivity.
  - destruct r as [c|c|].
    + exists (Some (forwardLine (autoPkType options) c) :: lines). split.
      * simpl. rewrite Hmap. reflexivity.
      * change (keepLines (Some (forwardLine (autoPkType options) c) :: lines))
          with (match (if Js.truthy (Some (forwardLine (autoPkType options) c))
                       then Some (forwardLine (autoPkType options) c) else None) with
                | Some y => y :: keepLines lines
                | None => keepLines lines
                end).
        rewrite forwardLine_truthy. now rewrite Hkeep.
    + exists (None :: lines). split.
      * simpl. rewrite Hmap. reflexivity.
      * exact Hkeep.
    + now destruct Hr.
Qed.

Lemma reverse_lines_supported (options : Options)
    (collectionDefinition : CollectionDefinition) (l : list Relationship) :
  Forall supported l ->
  exists lines,
    map_throwing
      (fun reverseRelationship =>
         TsIndex.generateTypescriptReverseRelationship
           reverseRelationship options collectionDefinition) l
      = Ok lines /\
    keepLines lines = map reverseBlock (childOfOnly l).
Proof.
  induction 1 as [|r l Hr Hl (lines & Hmap & Hkeep)].
  - exists []. split; reflexivity.
  - destruct r as [c|c|].
    + exists (Some (reverseBlock c) :: lines). split.
      * simpl. rewrite Hmap. reflexivity.
      * change (keepLines (Some (reverseBlock c) :: lines))
          with (reverseBlock c :: keepLines lines).
        now rewrite Hkeep.
    + exists (None :: lines). split.
      * simpl. rewrite Hmap. reflexivity.
      * exact Hkeep.
    + now destruct Hr.
Qed.

Lemma forward_lines_unsupported (options : Options)
    (collectionDefinition : CollectionDefinition) (l : list Relationship) :
  In OtherRelationship l ->
  map_throwing
    (fun relationship =>
       TsIndex.generateTypescriptRelationship relationship options collectionDefinition) l
    = Throw (Error ("Unsupported relationship type detected in collection "
                      +:+ name collectionDefinition)).
Proof.
  induction l as [|r l IH]; intros Hin; [destruct Hin|].
  destruct r as [c|c|].
  - destruct Hin as [H|H]; [discriminate H|]. simpl. now rewrite IH.
  - destruct Hin as [H|H]; [discriminate H|]. simpl. now rewrite IH.
  - reflexivity.
Qed.

Lemma reverse_lines_unsupported (options : Options)
    (collectionDefinition : CollectionDefinition) (l : list Relationship) :
  In OtherRelationship l ->
  map_throwing
    (fun reverseRelationship =>
       TsIndex.generateTypescriptReverseRelationship
         reverseRelationship options collectionDefinition) l
    = Throw (Error ("Unsupported reverse relationship type detected in collection "
                      +:+ name collectionDefinition)).
Proof.
  induction l as [|r l IH]; intros Hin; [destruct Hin|].
  destruct r as [c|c|].
  - destruct Hin as [H|H]; [discriminate H|]. simpl. now rewrite IH.
  - destruct Hin as [H|H]; [discriminate H|]. simpl. now rewrite IH.
  - reflexivity.
Qed.

Lemma generateTypescriptInterface_run
    (collectionDefinition : CollectionDefinition) (options : Options) (s : Store)
    (pkLine : string) (fieldLines : list (option string)) :
  TsIndex.generateTypescriptOptionalPk collectionDefinition options = Ok pkLine ->
  emittedFieldLines options collectionDefinition = Ok fieldLines ->
  Forall supported (relationships collectionDefinition) ->
  Forall supported (reverseRelationships collectionDefinition) ->
  TsIndex.generateTypescriptInterface collectionDefinition options s =
    (Ok (declarationOf options collectionDefinition pkLine fieldLines),
     afterParameters collectionDefinition s).
Proof.
  intros Hpk Hfields Hfwd Hrev.
  destruct (forward_lines_supported options collectionDefinition _ Hfwd)
    as (fwd & Hfwdmap & Hfwdkeep).
  destruct (reverse_lines_supported options collectionDefinition _ Hrev)
    as (rev & Hrevmap & Hrevkeep).
  unfold TsIndex.generateTypescriptInterface, bind, lift.
  unfold emittedFieldLines in Hfields. unfold reverseRelationships in Hrevmap.
  rewrite Hpk, Hfields, Hfwdmap, Hrevmap.
  rewrite (generateTypescriptInterfaceParameters_run _ _ _ Hfwd Hrev).
  unfold ret, declarationOf. rewrite Hfwdkeep, Hrevkeep. reflexivity.
Qed.

Lemma generateTypescriptInterface_unsupported_forward
    (collectionDefinition : CollectionDefinition) (options : Options) (s : Store)
    (pkLine : string) (fieldLines : list (option string)) :
  TsIndex.generateTypescriptOptionalPk collectionDefinition options = Ok pkLine ->
  emittedFieldLines options collectionDefinition = Ok fieldLines ->
  In OtherRelationship (relationships collectionDefinition) ->
  TsIndex.generateTypescriptInterface collectionDefinition options s =
    (Throw (Error ("Unsupported relationship type detected in collection "
                     +:+ name collectionDefinition)), s).
Proof.
  intros Hpk Hfields Hin.
  unfold TsIndex.generateTypescriptInterface, bind, lift.
  unfold emittedFieldLines in Hfields.
  rewrite Hpk, Hfields, (forward_lines_unsupported _ _ _ Hin). reflexivity.
Qed.

Lemma generateTypescriptInterface_unsupported_reverse
    (collectionDefinition : CollectionDefinition) (options : Options) (s : Store)
    (pkLine : string) (fieldLines : list (option string)) :
  TsIndex.generateTypescriptOptionalPk collectionDefinition options = Ok pkLine ->
  emittedFieldLines options collectionDefinition = Ok fieldLines ->
  Forall supported (relationships collectionDefinition) ->
  In OtherRelationship (reverseRelationships collectionDefinition) ->
  TsIndex.generateTypescriptInterface collectionDefinition options s =
    (Throw (Error ("Unsupported reverse relationship type detected in collection "
                     +:+ name collectionDefinition)), s).
Proof.
  intros Hpk Hfields Hfwd Hin.
  destruct (forward_lines_supported options collectionDefinition _ Hfwd)
    as (fwd & Hfwdmap & _).
  unfold TsIndex.generateTypescriptInterface, bind, lift.
  unfold emittedFieldLines in Hfields. unfold reverseRelationships in Hin.
  rewrite Hpk, Hfields, Hfwdmap, (reverse_lines_unsupported _ _ _ Hin). reflexivity.
Qed.

Lemma generateTypescriptInterface_unsupported_fails
    (collectionDefinition : CollectionDefinition) (options : Options) (s : Store) :
  In OtherRelationship (relationships collectionDefinition) \/
  In OtherRelationship (reverseRelationships collectionDefinition) ->
  exists e, TsIndex.generateTypescriptInterface collectionDefinition options s = (Throw e, s).
Proof.
  intros Hin.
  destruct (TsIndex.generateTypescriptOptionalPk collectionDefinition options)
    as [pkLine|e] eqn:Hpk.
  2:{ exists e. unfold TsIndex.generateTypescriptInterface, bind, lift. now rewrite Hpk. }
  destruct (emittedFieldLines options collectionDefinition) as [fieldLines|e] eqn:Hfields.
  2:{ exists e. unfold TsIndex.generateTypescriptInterface, bind, lift.
      unfold emittedFieldLines in Hfields. now rewrite Hpk, Hfields. }
  destruct (supported_or_other (relationships collectionDefinition)) as [Hfwd|Hfwd].
  - destruct Hin as [Hin|Hin].
    + eexists. eapply generateTypescriptInterface_unsupported_forward; eauto.
    + eexists. eapply generateTypescriptInterface_unsupported_reverse; eauto.
  - eexists. eapply generateTypescriptInterface_unsupported_forward; eauto.
Qed.

(** C8: the emitters return nothing, without failing, for a connects
    relationship, and throw the error naming the collection for a
    relationship that is neither child-of nor connects. A collection with
    such a relationship is not generated; when its primary-key line and
    field lines are produced, the error is that one. A collection whose
    relationships are all child-of or connects is generated with lines for
    the child-of ones only, and one warning is written per connects
    relationship. *)
Theorem connects_skipped_unsupported_fatal
    (collectionDefinition : CollectionDefinition) (options : Options) (s : Store) :
  (forall connects,
     TsIndex.generateTypescriptRelationship
       (ConnectsRelationship connects) options collectionDefinition = Ok None /\
     TsIndex.generateTypescriptReverseRelationship
       (ConnectsRelationship connects) options collectionDefinition = Ok None) /\
  (forall relationship,
     isChildOfRelationship relationship = false ->
     isConnectsRelationship relationship = false ->
     TsIndex.generateTypescriptRelationship relationship options collectionDefinition
       = Throw (Error ("Unsupported relationship type detected in collection "
                         +:+ name collectionDefinition)) /\
     TsIndex.generateTypescriptReverseRelationship relationship options collectionDefinition
       = Throw (Error ("Unsupported reverse relationship type detected in collection "
                         +:+ name collectionDefinition))) /\
  (In OtherRelationship (relationships collectionDefinition) \/
   In OtherRelationship (reverseRelationships collectionDefinition) ->
     exists e,
       TsIndex.generateTypescriptInterface collectionDefinition options s = (Throw e, s)) /\
  (forall pkLine fieldLines,
     TsIndex.generateTypescriptOptionalPk collectionDefinition options = Ok pkLine ->
     emittedFieldLines options collectionDefinition = Ok fieldLines ->
     (In OtherRelationship (relationships collectionDefinition) ->
        TsIndex.generateTypescriptInterface collectionDefinition options s =
          (Throw (Error ("Unsupported relationship type detected in collection "
                           +:+ name collectionDefinition)), s)) /\
     (Forall supported (relationships collectionDefinition) ->
      In OtherRelationship (reverseRelationships collectionDefinition) ->
        TsIndex.generateTypescriptInterface collectionDefinition options s =
          (Throw (Error ("Unsupported reverse relationship type detected in collection "
                           +:+ name collectionDefinition)), s)) /\
     (Forall supported (relationships collectionDefinition) ->
      Forall supported (reverseRelationships collectionDefinition) ->
        TsIndex.generateTypescriptInterface collectionDefinition options s =
          (Ok (declarationOf options collectionDefinition pkLine fieldLines),
           afterParameters collectionDefinition s) /\
        console (afterParameters collectionDefinition s) =
          console s ++
          forwardWarnings (name collectionDefinition) (relationships collectionDefinition) ++
          reverseWarnings (name collectionDefinition)
            (reverseRelationships collectionDefinition) /\
        length (forwardWarnings (name collectionDefinition)
                  (relationships collectionDefinition))
          = length (connectsOnly (relationships collectionDefinition)) /\
        length (reverseWarnings (name collectionDefinition)
                  (reverseRelationships collectionDefinition))
          = length (connectsOnly (reverseRelationships collectionDefinition)))).
Proof.
  split; [|split; [|split]].
  - intros connects. split; reflexivity.
  - intros [c|c|] Hchild Hconnects; try discriminate. split; reflexivity.
  - apply generateTypescriptInterface_unsupported_fails.
  - intros pkLine fieldLines Hpk Hfields. split; [|split].
    + intros Hin. eapply generateTypescriptInterface_unsupported_forward; eauto.
    + intros Hfwd Hin. eapply generateTypescriptInterface_unsupported_reverse; eauto.
    + intros Hfwd Hrev. split; [|split; [|split]].
      * now apply generateTypescriptInterface_run.
      * reflexivity.
      * unfold forwardWarnings. now rewrite length_map.
      * unfold reverseWarnings. now rewrite length_map.
Qed.

(** ** The registry is only read *)

Create HintDb frame.

Lemma preserves_ret {A} (a : A) : preservesRegistry (ret a).
Proof. intros s. reflexivity. Qed.

Lemma preserves_throw {A} (e : JsError) : preservesRegistry (@throw A e).
Proof. intros s. reflexivity. Qed.

Lemma preserves_lift {A} (r : Outcome A) : preservesRegistry (lift r).
Proof. intros s. reflexivity. Qed.

Lemma preserves_bind {A B} (m : M A) (k : A -> M B) :
  preservesRegistry m -> (forall a, preservesRegistry (k a)) ->
  preservesRegistry (bind m k).
Proof.
  intros Hm Hk s. unfold bind.
  specialize (Hm s). destruct (m s) as [[a|e] s1]; simpl in *.
  - now rewrite Hk.
  - exact Hm.
Qed.

Lemma preserves_addReferencedImport (collectionName : string) :
  preservesRegistry (addReferencedImport collectionName).
Proof. intros s. reflexivity. Qed.

Lemma preserves_newContext : preservesRegistry newContext.
Proof. intros s. reflexivity. Qed.

Lemma preserves_consoleWarn (line : string) : preservesRegistry (consoleWarn line).
Proof. intros s. reflexivity. Qed.

Lemma preserves_readCollection (collectionName : string) :
  preservesRegistry (readCollection collectionName).
Proof. intros s. reflexivity. Qed.

Lemma preserves_readReferencedImports : preservesRegistry readReferencedImports.
Proof. intros s. reflexivity. Qed.

#[local] Hint Resolve preserves_ret preserves_throw preserves_lift preserves_bind
  preserves_addReferencedImport preserves_newContext preserves_consoleWarn
  preserves_readCollection preserves_readReferencedImports : frame.

Lemma preserves_mapM {A B} (f : A -> M B) (l : list A) :
  (forall a, preservesRegistry (f a)) -> preservesRegistry (mapM f l).
Proof.
  intros Hf. induction l as [|x l IH]; simpl; auto with frame.
Qed.

Lemma preserves_relationshipFieldsLoop (collectionName : string)
    (l : list Relationship) (acc : list string) :
  preservesRegistry (TsIndex.relationshipFieldsLoop collectionName l acc).
Proof.
  revert acc. induction l as [|[c|c|] l IH]; intros acc; simpl; auto with frame.
Qed.

Lemma preserves_reverseRelationshipFieldsLoop (collectionName : string)
    (l : list Relationship) (acc : list string) :
  preservesRegistry (TsIndex.reverseRelationshipFieldsLoop collectionName l acc).
Proof.
  revert acc. induction l as [|[c|c|] l IH]; intros acc; simpl; auto with frame.
Qed.

#[local] Hint Resolve preserves_mapM preserves_relationshipFieldsLoop
  preserves_reverseRelationshipFieldsLoop : frame.

Lemma preserves_generateTypescriptInterfaceParameters
    (collectionDefinition : CollectionDefinition) (options : Options) :
  preservesRegistry
    (TsIndex.generateTypescriptInterfaceParameters collectionDefinition options).
Proof.
  unfold TsIndex.generateTypescriptInterfaceParameters.
  destruct (TsIndex.isEmpty _ && TsIndex.isEmpty _); auto 10 with frame.
Qed.

#[local] Hint Resolve preserves_generateTypescriptInterfaceParameters : frame.

Lemma preserves_generateTypescriptInterface
    (collectionDefinition : CollectionDefinition) (options : Options) :
  preservesRegistry (TsIndex.generateTypescriptInterface collectionDefinition options).
Proof.
  unfold TsIndex.generateTypescriptInterface. auto 20 with frame.
Qed.

#[local] Hint Resolve preserves_generateTypescriptInterface : frame.

Lemma preserves_generateRequested (options : Options) (collectionName : string) :
  preservesRegistry (TsIndex.generateRequested options collectionName).
Proof.
  unfold TsIndex.generateRequested.
  apply preserves_bind; [auto with frame|].
  intros [collectionDefinition|]; auto with frame.
Qed.

#[local] Hint Resolve preserves_generateRequested : frame.

(** C9: a run of the entry point, and the generation of one collection,
    leave the registry's collection definitions as they were, whether the
    run returns the text or throws: every definition reads afterwards as it
    did before. *)
Theorem registry_unchanged
    (options : Options) (collectionDefinition : CollectionDefinition) (s : Store) :
  registry (snd (TsIndex.generateTypescriptInterfaces options s)) = registry s /\
  registry (snd (TsIndex.generateTypescriptInterface collectionDefinition options s))
    = registry s /\
  (forall collectionName,
     registry (snd (TsIndex.generateTypescriptInterfaces options s)) !! collectionName
       = registry s !! collectionName).
Proof.
  assert (Hrun : preservesRegistry (TsIndex.generateTypescriptInterfaces options)).
  { unfold TsIndex.generateTypescriptInterfaces. auto 20 with frame. }
  split; [apply Hrun|]. split.
  - apply preserves_generateTypescriptInterface.
  - intros collectionName. now rewrite Hrun.
Qed.

(** ** The tracking set and the import statements *)

Lemma addAll_firstOccurrences (names set : list string) :
  addAll names set = set ++ filter (fun y => y ∉ set) (firstOccurrences names).
Proof.
  revert set. induction names as [|x names IH]; intros set.
  - simpl. now rewrite app_nil_r.
  - change (addAll (x :: names) set) with (addAll names (Js.set_add x set)).
    unfold Js.set_add. simpl firstOccurrences.
    destruct (bool_decide (x ∈ set)) eqn:Hx.
    + apply bool_decide_eq_true in Hx.
      rewrite IH, filter_cons_False by (intros H; now apply H).
      f_equal. symmetry. apply list_filter_filter_l.
      intros y Hy ->. now apply Hy.
    + apply bool_decide_eq_false in Hx.
      rewrite IH, filter_cons_True by exact Hx.
      rewrite <- app_assoc. simpl. f_equal. f_equal.
      rewrite list_filter_filter. apply list_filter_iff.
      intros y. rewrite elem_of_app, list_elem_of_singleton. tauto.
Qed.

Lemma addAll_empty (names : list string) : addAll names [] = firstOccurrences names.
Proof.
  rewrite addAll_firstOccurrences. simpl.
  induction (firstOccurrences names) as [|y l IH]; [reflexivity|].
  rewrite filter_cons_True by apply not_elem_of_nil. now rewrite IH.
Qed.

Lemma elem_of_firstOccurrences (names : list string) (x : string) :
  x ∈ firstOccurrences names <-> x ∈ names.
Proof.
  induction names as [|y names IH]; simpl; [reflexivity|].
  rewrite !elem_of_cons, list_elem_of_filter, IH.
  destruct (decide (x = y)); tauto.
Qed.

Lemma NoDup_firstOccurrences (names : list string) : NoDup (firstOccurrences names).
Proof.
  induction names as [|y names IH]; simpl; [constructor|].
  apply NoDup_cons. split.
  - rewrite list_elem_of_filter. intros [H _]. now apply H.
  - now apply NoDup_filter.
Qed.

Lemma importStatement_truthy (generateImport_ : ImportGenerator)
    (collectionName : string) (rest : list string) :
  Js.truthy (Some (Js.join Js.nl
                     (TsIndex.importStatement generateImport_ collectionName :: rest)))
    = true.
Proof. destruct rest; reflexivity. Qed.

Lemma keepLines_cons_kept (line : string) (lines : list (option string)) :
  Js.truthy (Some line) = true ->
  keepLines (Some line :: lines) = line :: keepLines lines.
Proof.
  intros H.
  change (keepLines (Some line :: lines))
    with (match (if Js.truthy (Some line) then Some line else None) with
          | Some y => y :: keepLines lines
          | None => keepLines lines
          end).
  now rewrite H.
Qed.

Lemma kept_import_lines (generateImport_ : ImportGenerator) (options : Options)
    (referenced : list string) :
  keepLines
    (map (fun collectionName =>
            if Js.not_in_array collectionName (collections options)
            then Some (TsIndex.importStatement generateImport_ collectionName)
            else None)
         referenced)
  = map (TsIndex.importStatement generateImport_) (externalReferences options referenced).
Proof.
  unfold externalReferences.
  induction referenced as [|x referenced IH]; [reflexivity|].
  unfold Js.not_in_array in *. rewrite map_cons.
  destruct (bool_decide (x ∈ collections options)) eqn:Hx.
  - apply bool_decide_eq_true in Hx.
    rewrite filter_cons_False by (intros H; now apply H).
    exact IH.
  - apply bool_decide_eq_false in Hx.
    rewrite filter_cons_True by exact Hx.
    simpl negb. cbv iota.
    rewrite keepLines_cons_kept by reflexivity.
    rewrite map_cons. now rewrite IH.
Qed.

Lemma import_block (referenced : list string) (options : Options) :
  blockIfAny (TsIndex.generateTypescriptImports referenced options) =
    match importStatements options referenced with
    | [] => []
    | statements => [Js.join Js.nl statements]
    end.
Proof.
  unfold TsIndex.generateTypescriptImports, importStatements.
  destruct (generateImport options) as [generateImport_|]; [|reflexivity].
  destruct referenced as [|x referenced]; [reflexivity|].
  simpl TsIndex.isEmpty. cbv iota. rewrite kept_import_lines.
  destruct (externalReferences options (x :: referenced)) as [|y ys]; [reflexivity|].
  rewrite !map_cons. unfold blockIfAny.
  now rewrite keepLines_cons_kept by apply importStatement_truthy.
Qed.

Lemma generateTypescriptInterface_ok_store
    (collectionDefinition : CollectionDefinition) (options : Options)
    (s s' : Store) (declaration : string) :
  TsIndex.generateTypescriptInterface collectionDefinition options s = (Ok declaration, s') ->
  s' = afterParameters collectionDefinition s.
Proof.
  intros Hrun.
  destruct (TsIndex.generateTypescriptOptionalPk collectionDefinition options)
    as [pkLine|e] eqn:Hpk.
  2:{ unfold TsIndex.generateTypescriptInterface, bind, lift in Hrun.
      rewrite Hpk in Hrun. discriminate Hrun. }
  destruct (emittedFieldLines options collectionDefinition) as [fieldLines|e] eqn:Hfields.
  2:{ unfold TsIndex.generateTypescriptInterface, bind, lift in Hrun.
      unfold emittedFieldLines in Hfields. rewrite Hpk, Hfields in Hrun.
      discriminate Hrun. }
  destruct (supported_or_other (relationships collectionDefinition)) as [Hfwd|Hfwd].
  2:{ rewrite (generateTypescriptInterface_unsupported_forward _ _ _ _ _ Hpk Hfields Hfwd)
        in Hrun. discriminate Hrun. }
  destruct (supported_or_other (reverseRelationships collectionDefinition)) as [Hrev|Hrev].
  2:{ rewrite (generateTypescriptInterface_unsupported_reverse
                 _ _ _ _ _ Hpk Hfields Hfwd Hrev) in Hrun. discriminate Hrun. }
  rewrite (generateTypescriptInterface_run _ _ _ _ _ Hpk Hfields Hfwd Hrev) in Hrun.
  congruence.
Qed.

Lemma addAll_app (l1 l2 set : list string) :
  addAll (l1 ++ l2) set = addAll l2 (addAll l1 set).
Proof. unfold addAll. apply fold_left_app. Qed.

Lemma requested_declarations (options : Options) (names : list string)
    (s s' : Store) (declarations : list string) :
  mapM (TsIndex.generateRequested options) names s = (Ok declarations, s') ->
  exists definitions,
    Forall2 (fun collectionName collectionDefinition =>
               registry s !! collectionName = Some collectionDefinition)
            names definitions /\
    Forall2 (fun collectionDefinition declaration =>
               exists s1,
                 TsIndex.generateTypescriptInterface collectionDefinition options s1
                   = (Ok declaration, afterParameters collectionDefinition s1))
            definitions declarations /\
    registry s' = registry s /\
    referencedImports s' =
      addAll (flat_map referencedBy definitions) (referencedImports s).
Proof.
  revert s declarations.
  induction names as [|collectionName names IH]; intros s declarations Hrun.
  - simpl in Hrun. unfold ret in Hrun. injection Hrun as <- <-.
    exists []. repeat split; constructor.
  - simpl in Hrun. unfold bind at 1 in Hrun.
    unfold TsIndex.generateRequested at 1 in Hrun.
    unfold bind at 1, readCollection in Hrun.
    destruct (registry s !! collectionName) as [collectionDefinition|] eqn:Hfound;
      [|discriminate Hrun].
    destruct (TsIndex.generateTypescriptInterface collectionDefinition options s)
      as [[declaration|e] s1] eqn:Hone; [|discriminate Hrun].
    pose proof (generateTypescriptInterface_ok_store _ _ _ _ _ Hone) as Hs1.
    unfold bind at 1 in Hrun.
    destruct (mapM (TsIndex.generateRequested options) names s1)
      as [[rest|e] s2] eqn:Hrest; [|discriminate Hrun].
    unfold ret in Hrun. injection Hrun as <- <-.
    destruct (IH _ _ Hrest) as (definitions & Hdefs & Hdecls & Hreg & Hrefs).
    assert (Hreg1 : registry s1 = registry s) by now rewrite Hs1.
    exists (collectionDefinition :: definitions). repeat split.
    + constructor; [exact Hfound|].
      eapply Forall2_impl; [exact Hdefs|]. intros n cd H. now rewrite <- Hreg1.
    + constructor; [|exact Hdecls]. exists s. now rewrite <- Hs1.
    + now rewrite Hreg.
    + rewrite Hrefs, Hs1. simpl. now rewrite addAll_app.
Qed.

Lemma generateTypescriptInterface_returns
    (collectionDefinition : CollectionDefinition) (options : Options) (s : Store) :
  generable options collectionDefinition ->
  exists declaration,
    TsIndex.generateTypescriptInterface collectionDefinition options s
      = (Ok declaration, afterParameters collectionDefinition s).
Proof.
  intros ((pk & Hpk) & (fieldLines & Hfields) & Hfwd & Hrev).
  eexists. eapply generateTypescriptInterface_run; eauto.
  unfold TsIndex.generateTypescriptOptionalPk. rewrite Hpk. reflexivity.
Qed.

Lemma requested_declarations_returned (options : Options) (names : list string)
    (s : Store) :
  Forall (fun collectionName =>
            exists collectionDefinition,
              registry s !! collectionName = Some collectionDefinition /\
              generable options collectionDefinition) names ->
  exists declarations s',
    mapM (TsIndex.generateRequested options) names s = (Ok declarations, s').
Proof.
  revert s. induction names as [|collectionName names IH]; intros s Hall.
  - exists [], s. reflexivity.
  - apply Forall_cons in Hall as [(cd & Hfound & Hgen) Hall].
    destruct (generateTypescriptInterface_returns cd options s Hgen) as (d & Hone).
    destruct (IH (afterParameters cd s)) as (ds & s' & Hrest).
    { eapply Forall_impl; [exact Hall|]. intros n H. exact H. }
    exists (d :: ds), s'. simpl. unfold bind at 1.
    unfold TsIndex.generateRequested at 1. unfold bind at 1, readCollection.
    rewrite Hfound, Hone. unfold bind at 1. rewrite Hrest. reflexivity.
Qed.

(** A batch whose requested collections are registered and generable
    returns its text. *)
Lemma generateTypescriptInterfaces_returns (options : Options) (s : Store) :
  Forall (fun collectionName =>
            exists collectionDefinition,
              registry s !! collectionName = Some collectionDefinition /\
              generable options collectionDefinition) (collections options) ->
  exists out s', TsIndex.generateTypescriptInterfaces options s = (Ok out, s').
Proof.
  intros Hall.
  destruct (requested_declarations_returned options (collections options)
              {| registry := registry s; referencedImports := []; console := console s |}
              Hall) as (declarations & s' & Hmap).
  unfold TsIndex.generateTypescriptInterfaces.
  unfold bind at 1, newContext. unfold bind at 1. rewrite Hmap.
  unfold bind, readReferencedImports, ret. eauto.
Qed.

Lemma no_external_references (options : Options) (referenced : list string) :
  (forall collectionName,
     collectionName ∈ referenced -> collectionName ∈ collections options) ->
  externalReferences options referenced = [].
Proof.
  intros Hall. apply elem_of_nil_inv. intros x Hx.
  apply list_elem_of_filter in Hx as [Hnot Hin]. apply Hnot. now apply Hall.
Qed.

(** C2: in the text of a batch run, the import statements are those of the
    referenced collection names that are not requested, one statement per
    name, in the order in which the names were first referenced (the
    requested collections in turn, for each its forward child-of targets and
    then its reverse child-of sources); they come before the declarations,
    and there is none when no resolver is supplied or when every referenced
    name is requested. *)
Theorem imports_for_external_references
    (options : Options) (s s' : Store) (out : string) :
  TsIndex.generateTypescriptInterfaces options s = (Ok out, s') ->
  exists definitions declarations,
    Forall2 (fun collectionName collectionDefinition =>
               registry s !! collectionName = Some collectionDefinition)
            (collections options) definitions /\
    Forall2 (fun collectionDefinition declaration =>
               exists s1,
                 TsIndex.generateTypescriptInterface collectionDefinition options s1
                   = (Ok declaration, afterParameters collectionDefinition s1))
            definitions declarations /\
    let referenced := firstOccurrences (flat_map referencedBy definitions) in
    let interfaces := Js.join (Js.nl +:+ Js.nl) declarations +:+ Js.nl in
    referencedImports s' = referenced /\
    out = match importStatements options referenced with
          | [] => interfaces
          | statements =>
              Js.join Js.nl statements +:+ (Js.nl +:+ Js.nl) +:+ interfaces
          end /\
    (forall generateImport_, generateImport options = Some generateImport_ ->
       importStatements options referenced =
         map (TsIndex.importStatement generateImport_)
             (externalReferences options referenced)) /\
    NoDup (externalReferences options referenced) /\
    (forall collectionName,
       collectionName ∈ externalReferences options referenced <->
       collectionName ∈ flat_map referencedBy definitions /\
       collectionName ∉ collections options) /\
    (generateImport options = None -> importStatements options referenced = []) /\
    ((forall collectionName,
        collectionName ∈ flat_map referencedBy definitions ->
        collectionName ∈ collections options) ->
     importStatements options referenced = []).
Proof.
  intros Hrun.
  unfold TsIndex.generateTypescriptInterfaces in Hrun.
  unfold bind at 1, newContext in Hrun.
  unfold bind at 1 in Hrun.
  destruct (mapM (TsIndex.generateRequested options) (collections options)
              {| registry := registry s; referencedImports := []; console := console s |})
    as [[declarations|e] s1] eqn:Hmap; [|discriminate Hrun].
  unfold bind, readReferencedImports, ret in Hrun.
  injection Hrun as Hout <-.
  destruct (requested_declarations _ _ _ _ _ Hmap)
    as (definitions & Hdefs & Hdecls & _ & Hrefs).
  simpl in Hdefs, Hrefs. rewrite addAll_empty in Hrefs.
  exists definitions, declarations.
  split; [exact Hdefs|]. split; [exact Hdecls|].
  cbv zeta. split; [exact Hrefs|]. split; [|split; [|split; [|split; [|split]]]].
  - rewrite <- Hout, Hrefs, import_block.
    destruct (importStatements options
                (firstOccurrences (flat_map referencedBy definitions)));
      reflexivity.
  - intros g Hg. unfold importStatements. now rewrite Hg.
  - apply NoDup_filter, NoDup_firstOccurrences.
  - intros n. unfold externalReferences.
    rewrite list_elem_of_filter, elem_of_firstOccurrences. tauto.
  - intros Hnone. unfold importStatements. now rewrite Hnone.
  - intros Hall. unfold importStatements.
    rewrite no_external_references.
    + now destruct (generateImport options).
    + intros n Hn. apply Hall. now apply elem_of_firstOccurrences.
Qed.

Lemma imports_for_external_references_witness :
  exists declarations,
    fst (TsIndex.generateTypescriptInterfaces importOptions sampleStore)
      = Ok ("import { Foo } from './foo' " +:+ (Js.nl +:+ Js.nl) +:+
            (Js.join (Js.nl +:+ Js.nl) declarations +:+ Js.nl)) /\
    referencedImports (snd (TsIndex.generateTypescriptInterfaces importOptions sampleStore))
      = ["foo"].
Proof.
  destruct (TsIndex.generateTypescriptInterfaces importOptions sampleStore)
    as [[out|e] s'] eqn:Hrun; [|vm_compute in Hrun; discriminate Hrun].
  destruct (imports_for_external_references importOptions sampleStore s' out Hrun)
    as (definitions & declarations & Hdefs & _ & Hrest).
  cbv zeta in Hrest. destruct Hrest as (Hrefs & Hout & _).
  apply Forall2_cons_inv_l in Hdefs as (cd & rest & Hfound & Hnil & ->).
  apply Forall2_nil_inv_l in Hnil as ->.
  vm_compute in Hfound. injection Hfound as <-.
  exists declarations. split.
  - simpl fst. rewrite Hout. reflexivity.
  - simpl snd. rewrite Hrefs. reflexivity.
Defined.

Lemma connects_skipped_unsupported_fatal_witness :
  TsIndex.generateTypescriptInterface brokenCollection (plainOptions PkInt ["broken"])
    sampleStore
    = (Throw (Error "Unsupported relationship type detected in collection broken"),
       sampleStore) /\
  console (snd (TsIndex.generateTypescriptInterface tagLinkCollection
                  (plainOptions PkInt ["tagLink"]) sampleStore))
    = ["Warning: 'connects' relationships are not supported yet, skipping one in collection tagLink"].
Proof.
  destruct (connects_skipped_unsupported_fatal brokenCollection
              (plainOptions PkInt ["broken"]) sampleStore) as (_ & _ & _ & Hbroken).
  destruct (Hbroken "( WithPk extends true ? { id : number } : {} )" [None]
              eq_refl eq_refl) as (Hthrow & _ & _).
  destruct (connects_skipped_unsupported_fatal tagLinkCollection
              (plainOptions PkInt ["tagLink"]) sampleStore) as (_ & _ & _ & Hlink).
  destruct (Hlink "( WithPk extends true ? { id : number } : {} )"
              [None; Some "weight : number"] eq_refl eq_refl) as (_ & _ & Hok).
  split.
  - apply Hthrow. simpl. auto.
  - destruct Hok as (Hrun & Hconsole & _).
    + repeat constructor; discriminate.
    + constructor.
    + rewrite Hrun. simpl snd. rewrite Hconsole. reflexivity.
Defined.

Example generated_with_import :
  fst (TsIndex.generateTypescriptInterfaces importOptions sampleStore)
    = Ok ("import { Foo } from './foo' " +:+ Js.nl +:+ Js.nl +:+
          "export type Bar<WithPk extends boolean = true, Relationships extends 'foo' | null = null> ="
            +:+ Js.nl +:+
          "    ( WithPk extends true ? { id : number } : {} ) &" +:+ Js.nl +:+
          "    {" +:+ Js.nl +:+
          "        eggs : string" +:+ Js.nl +:+
          "    } &" +:+ Js.nl +:+
          "    {" +:+ Js.nl +:+
          "        foo : 'foo' extends Relationships ? Foo : number" +:+ Js.nl +:+
          "    }" +:+ Js.nl).
Proof. vm_compute. reflexivity. Qed.

(** The expectations of the test suite for a collection with a reverse
    relationship, and for the strategy [generic]. *)
Example generated_with_reverse_relationship :
  fst (TsIndex.generateTypescriptInterface fooCollection (plainOptions PkInt ["foo"; "bar"])
         sampleStore)
    = Ok ("export type Foo<WithPk extends boolean = true, Relationships extends null = null, ReverseRelationships extends 'bars' | null = null> ="
            +:+ Js.nl +:+
          "    ( WithPk extends true ? { id : number } : {} ) &" +:+ Js.nl +:+
          "    {" +:+ Js.nl +:+
          "        spam : string" +:+ Js.nl +:+
          "    } &" +:+ Js.nl +:+
          "    ( 'bars' extends ReverseRelationships ? { bars : Bar[] } : {} )").
Proof. vm_compute. reflexivity. Qed.

Example generated_with_generic_pk :
  fst (TsIndex.generateTypescriptInterface testCollection (plainOptions PkGeneric ["test"])
         sampleStore)
    = Ok ("export type Test<WithPk extends boolean = true> =" +:+ Js.nl +:+
          "    ( WithPk extends true ? { id : number | string } : {} ) &" +:+ Js.nl +:+
          "    {" +:+ Js.nl +:+
          "        fieldString : string" +:+ Js.nl +:+
          "    }").
Proof. vm_compute. reflexivity. Qed.

Example flat_generated_with_skipped_type :
  Part000.generateTypescriptInterface
    {| name := "test";
       pkIndex := PkField "id";
       fields := [("id", field "auto-pk"); ("fieldString", field "string");
                  ("fieldText", field "media")];
       relationships := [];
       reverseRelationshipsByAlias := [] |}
    skipMediaOptions
    = Ok ("export type Test =" +:+ Js.nl +:+
          "    { id : number } &" +:+ Js.nl +:+
          "    {" +:+ Js.nl +:+
          "        fieldString : string" +:+ Js.nl +:+
          "    }").
Proof. vm_compute. reflexivity. Qed.

(** ** Lines and indentation *)

Lemma append_cons (c : ascii) (a b : string) : String c a +:+ b = String c (a +:+ b).
Proof. reflexivity. Qed.

Lemma split_lines_from_append (cur a b : string) :
  Js.split_lines_from cur (a +:+ Js.nl +:+ b)
    = Js.split_lines_from cur a ++ Js.split_lines b.
Proof.
  revert cur. induction a as [|c a IH]; intros cur.
  - reflexivity.
  - rewrite append_cons. simpl Js.split_lines_from.
    destruct (Ascii.eqb c (ascii_of_nat 10)).
    + now rewrite IH.
    + apply IH.
Qed.

Lemma split_lines_from_nonempty (cur s : string) : Js.split_lines_from cur s <> [].
Proof.
  revert cur. induction s as [|c s IH]; intros cur; simpl; [discriminate|].
  destruct (Ascii.eqb c (ascii_of_nat 10)); [discriminate | apply IH].
Qed.

Lemma split_lines_from_one_line (cur s : string) :
  hasNewline s = false -> Js.split_lines_from cur s = [cur +:+ s].
Proof.
  revert cur. induction s as [|c s IH]; intros cur H; simpl in *.
  - now rewrite append_empty_r.
  - apply orb_false_iff in H as [Hc Hs]. rewrite Hc, (IH _ Hs).
    now rewrite append_assoc.
Qed.

Lemma hasNewline_append (a b : string) :
  hasNewline (a +:+ b) = hasNewline a || hasNewline b.
Proof.
  induction a as [|c a IH]; [reflexivity|].
  rewrite append_cons. simpl. now rewrite IH, orb_assoc.
Qed.

Lemma split_lines_from_lines (cur s : string) :
  hasNewline cur = false ->
  Forall (fun line => hasNewline line = false) (Js.split_lines_from cur s).
Proof.
  revert cur. induction s as [|c s IH]; intros cur Hcur; simpl.
  - now repeat constructor.
  - destruct (Ascii.eqb c (ascii_of_nat 10)) eqn:Hc.
    + constructor; [exact Hcur | now apply IH].
    + apply IH. rewrite hasNewline_append, Hcur. simpl. now rewrite Hc.
Qed.

Lemma join_cons_cons (sep x y : string) (rest : list string) :
  Js.join sep (x :: y :: rest) = x +:+ sep +:+ Js.join sep (y :: rest).
Proof. reflexivity. Qed.

Lemma join_app (sep : string) (l1 l2 : list string) :
  l1 <> [] -> l2 <> [] ->
  Js.join sep (l1 ++ l2) = Js.join sep l1 +:+ sep +:+ Js.join sep l2.
Proof.
  intros H1 H2. induction l1 as [|x [|y l1] IH]; [contradiction| |].
  - destruct l2 as [|z l2]; [contradiction | reflexivity].
  - change ((x :: y :: l1) ++ l2) with (x :: y :: (l1 ++ l2)).
    rewrite !join_cons_cons.
    change (y :: l1 ++ l2) with ((y :: l1) ++ l2).
    rewrite IH by discriminate. now rewrite !append_assoc.
Qed.

Lemma split_lines_join (lines : list string) :
  lines <> [] ->
  Js.split_lines (Js.join Js.nl lines) = flat_map Js.split_lines lines.
Proof.
  induction lines as [|x [|y lines] IH]; intros H; [contradiction| |].
  - simpl. now rewrite app_nil_r.
  - rewrite join_cons_cons. unfold Js.split_lines at 1.
    rewrite split_lines_from_append.
    change (flat_map Js.split_lines (x :: y :: lines))
      with (Js.split_lines x ++ flat_map Js.split_lines (y :: lines)).
    now rewrite IH by discriminate.
Qed.

Lemma flat_map_one_line (lines : list string) :
  Forall (fun line => hasNewline line = false) lines ->
  flat_map Js.split_lines lines = lines.
Proof.
  induction 1 as [|x lines Hx Hl IH]; [reflexivity|].
  simpl. unfold Js.split_lines at 1.
  rewrite (split_lines_from_one_line _ _ Hx), IH. reflexivity.
Qed.

Lemma split_lines_append (a b : string) :
  Js.split_lines (a +:+ Js.nl +:+ b) = Js.split_lines a ++ Js.split_lines b.
Proof. apply split_lines_from_append. Qed.

Lemma map_split_nonempty (f : string -> string) (s : string) :
  map f (Js.split_lines s) <> [].
Proof.
  intros H. apply map_eq_nil in H. now apply split_lines_from_nonempty in H.
Qed.

Lemma split_lines_indent (s : string) :
  Js.split_lines (indent s) = map (fun l => "    " +:+ l) (Js.split_lines s).
Proof.
  unfold indent.
  rewrite split_lines_join by apply map_split_nonempty.
  apply flat_map_one_line, Forall_map.
  eapply Forall_impl; [apply (split_lines_from_lines "" s); reflexivity|].
  intros l Hl. simpl. now rewrite hasNewline_append, Hl.
Qed.

(** X1: [indent] puts four blanks before every line of its argument, the
    empty lines too, and keeps the lines otherwise. *)
Theorem indent_lines (s : string) :
  Js.split_lines (indent s) = map (fun l => "    " +:+ l) (Js.split_lines s).
Proof. apply split_lines_indent. Qed.

(** X2: [indent] works line by line: indenting two texts joined by a line
    feed is joining the two indented texts. *)
Theorem indent_distributes (a b : string) :
  indent (a +:+ Js.nl +:+ b) = indent a +:+ Js.nl +:+ indent b.
Proof.
  unfold indent. rewrite split_lines_append, map_app.
  apply join_app; apply map_split_nonempty.
Qed.

(** X3: [inIndentedBlock] returns [null] for no lines only; otherwise the
    block is an opening brace, the lines of the body each with four blanks
    before it, and a closing brace, and the caller keeps it. *)
Theorem indented_block_layout (bodyLines : list string) :
  (inIndentedBlock bodyLines = None <-> bodyLines = []) /\
  (bodyLines <> [] ->
   exists block,
     inIndentedBlock bodyLines = Some block /\
     blockIfAny (Some block) = [block] /\
     Js.split_lines block =
       "{" :: map (fun l => "    " +:+ l) (flat_map Js.split_lines bodyLines) ++ ["}"]).
Proof.
  split.
  - destruct bodyLines; split; intros H; try reflexivity; discriminate H.
  - intros Hne.
    exists ("{" +:+ Js.nl +:+ indent (Js.join Js.nl bodyLines) +:+ Js.nl +:+ "}").
    split; [destruct bodyLines; [contradiction | reflexivity]|].
    split; [reflexivity|].
    rewrite split_lines_append, split_lines_append, split_lines_indent.
    rewrite split_lines_join by exact Hne. reflexivity.
Qed.

Lemma indented_block_layout_witness :
  exists block,
    inIndentedBlock ["eggs : string"; "foo : number"] = Some block /\
    Js.split_lines block = ["{"; "    eggs : string"; "    foo : number"; "}"].
Proof.
  destruct (indented_block_layout ["eggs : string"; "foo : number"]) as [_ Hblock].
  destruct Hblock as (block & Hsome & _ & Hlines); [discriminate|].
  exists block. split; [exact Hsome | exact Hlines].
Defined.

(** ** The assembler: failures *)

Lemma generateTypescriptInterface_cases
    (collectionDefinition : CollectionDefinition) (options : Options) :
  (exists declaration, forall s,
     TsIndex.generateTypescriptInterface collectionDefinition options s
       = (Ok declaration, afterParameters collectionDefinition s)) \/
  (exists e, forall s,
     TsIndex.generateTypescriptInterface collectionDefinition options s = (Throw e, s)).
Proof.
  destruct (TsIndex.generateTypescriptOptionalPk collectionDefinition options)
    as [pkLine|e] eqn:Hpk.
  2:{ right. exists e. intros s.
      unfold TsIndex.generateTypescriptInterface, bind, lift. now rewrite Hpk. }
  destruct (emittedFieldLines options collectionDefinition) as [fieldLines|e] eqn:Hfields.
  2:{ right. exists e. intros s.
      unfold TsIndex.generateTypescriptInterface, bind, lift.
      unfold emittedFieldLines in Hfields. now rewrite Hpk, Hfields. }
  destruct (supported_or_other (relationships collectionDefinition)) as [Hfwd|Hfwd].
  2:{ right. eexists. intros s.
      eapply generateTypescriptInterface_unsupported_forward; eauto. }
  destruct (supported_or_other (reverseRelationships collectionDefinition)) as [Hrev|Hrev].
  2:{ right. eexists. intros s.
      eapply generateTypescriptInterface_unsupported_reverse; eauto. }
  left. eexists. intros s. eapply generateTypescriptInterface_run; eauto.
Qed.

(** X4: the generation of one collection is all or nothing: when it throws,
    no reference has been recorded and no warning written; when it returns,
    the references and warnings of the collection have all been added; and
    what it returns or throws does not depend on the context or the
    console. *)
Theorem interface_all_or_nothing
    (collectionDefinition : CollectionDefinition) (options : Options) (s : Store) :
  (forall e s',
     TsIndex.generateTypescriptInterface collectionDefinition options s = (Throw e, s') ->
     s' = s) /\
  (forall declaration s',
     TsIndex.generateTypescriptInterface collectionDefinition options s
       = (Ok declaration, s') ->
     s' = afterParameters collectionDefinition s) /\
  (forall s2,
     fst (TsIndex.generateTypescriptInterface collectionDefinition options s)
       = fst (TsIndex.generateTypescriptInterface collectionDefinition options s2)).
Proof.
  destruct (generateTypescriptInterface_cases collectionDefinition options)
    as [(d & Hok)|(e & Hthrow)].
  - repeat split.
    + intros e s' H. rewrite Hok in H. discriminate H.
    + intros d' s' H. rewrite Hok in H. congruence.
    + intros s2. now rewrite !Hok.
  - repeat split.
    + intros e' s' H. rewrite Hthrow in H. congruence.
    + intros d s' H. rewrite Hthrow in H. discriminate H.
    + intros s2. now rewrite !Hthrow.
Qed.

Lemma interface_all_or_nothing_witness :
  snd (TsIndex.generateTypescriptInterface brokenCollection (plainOptions PkInt ["broken"])
         sampleStore) = sampleStore /\
  referencedImports
    (snd (TsIndex.generateTypescriptInterface barCollection (plainOptions PkInt ["bar"])
            sampleStore)) = ["foo"].
Proof.
  destruct (interface_all_or_nothing brokenCollection (plainOptions PkInt ["broken"])
              sampleStore) as (Hthrow & _ & _).
  destruct (interface_all_or_nothing barCollection (plainOptions PkInt ["bar"])
              sampleStore) as (_ & Hok & _).
  split.
  - destruct (TsIndex.generateTypescriptInterface brokenCollection
                (plainOptions PkInt ["broken"]) sampleStore) as [[d|e] s'] eqn:Hrun.
    + vm_compute in Hrun. discriminate Hrun.
    + exact (Hthrow e s' eq_refl).
  - destruct (TsIndex.generateTypescriptInterface barCollection
                (plainOptions PkInt ["bar"]) sampleStore) as [[d|e] s'] eqn:Hrun.
    + simpl snd. rewrite (Hok d s' eq_refl). reflexivity.
    + vm_compute in Hrun. discriminate Hrun.
Defined.

Lemma map_throwing_app_throw {A B} (f : A -> Outcome B) (before after : list A)
    (x : A) (e : JsError) :
  Forall (fun a => exists b, f a = Ok b) before ->
  f x = Throw e ->
  map_throwing f (before ++ x :: after) = Throw e.
Proof.
  intros Hbefore Hx. induction Hbefore as [|a before (b & Ha) _ IH]; simpl.
  - now rewrite Hx.
  - now rewrite Ha, IH.
Qed.

(** X5: the order in which a collection fails. A primary-key index that is
    not a field name is reported first, whatever the fields and the
    relationships are, and its message shows [[object Object]] for the
    collection. After it comes the first field, in the order in which
    [Object.entries] lists the fields, that is kept, is not of kind
    [auto-pk], and whose kind reads as [undefined] or as the empty string
    in the type map in use (an inherited name such as [constructor] reads as
    a function and is not reported), even when the collection has
    relationships that are not supported. *)
Theorem generation_error_precedence
    (collectionDefinition : CollectionDefinition) (options : Options) (s : Store) :
  (forall fieldNames,
     pkIndex collectionDefinition = PkCompound fieldNames ->
     TsIndex.generateTypescriptInterface collectionDefinition options s =
       (Throw (Error "Unsupported pkIndex found in collection [object Object]"), s)) /\
  (forall pk before fieldName fieldDefinition after,
     pkIndex collectionDefinition = PkField pk ->
     fields collectionDefinition = before ++ (fieldName, fieldDefinition) :: after ->
     Forall (fun pair =>
               exists line,
                 TsIndex.generateTypescriptField (snd pair) options collectionDefinition
                   (fst pair) = Ok line) before ->
     type fieldDefinition <> "foreign-key" ->
     type fieldDefinition <> "auto-pk" ->
     fieldName <> pk ->
     Js.truthy (Js.get (effectiveTypeMap options) (type fieldDefinition)) = false ->
     TsIndex.generateTypescriptInterface collectionDefinition options s =
       (Throw (Error (unresolvedTypeMessage (type fieldDefinition)
                        (name collectionDefinition) fieldName)), s)).
Proof.
  split.
  - intros fieldNames Hpk.
    unfold TsIndex.generateTypescriptInterface, bind, lift,
      TsIndex.generateTypescriptOptionalPk.
    now rewrite Hpk.
  - intros pk before fieldName fieldDefinition after Hpk Hfields Hbefore Hfk Hauto Hname
      Hmissing.
    unfold TsIndex.generateTypescriptInterface, bind, lift,
      TsIndex.generateTypescriptOptionalPk.
    rewrite Hpk, Hfields.
    rewrite (map_throwing_app_throw _ before after (fieldName, fieldDefinition)
               (Error (unresolvedTypeMessage (type fieldDefinition)
                         (name collectionDefinition) fieldName)));
      [reflexivity | exact Hbefore |].
    simpl. unfold TsIndex.generateTypescriptField.
    apply String.eqb_neq in Hfk. apply String.eqb_neq in Hname.
    rewrite Hfk, Hpk. simpl. rewrite Hname.
    unfold getTypescriptFieldType.
    rewrite (eqb_auto_pk_false _ Hauto), Hmissing. reflexivity.
Qed.

Lemma generation_error_precedence_witness :
  fst (TsIndex.generateTypescriptInterface userProfileCollection
         (plainOptions PkInt ["userProfile"]) sampleStore)
    = Throw (Error "Unsupported pkIndex found in collection [object Object]") /\
  fst (TsIndex.generateTypescriptInterface albumCollection (plainOptions PkInt ["album"])
         sampleStore)
    = Throw (Error (unresolvedTypeMessage "media" "album" "cover")).
Proof.
  destruct (generation_error_precedence userProfileCollection
              (plainOptions PkInt ["userProfile"]) sampleStore) as [Hpk _].
  destruct (generation_error_precedence albumCollection (plainOptions PkInt ["album"])
              sampleStore) as [_ Hfield].
  split.
  - rewrite (Hpk ["firstName"; "lastName"] eq_refl). reflexivity.
  - rewrite (Hfield "id" [("id", field "auto-pk"); ("title", field "string")]
               "cover" (field "media") [("sleeve", field "media")]);
      try reflexivity; try (simpl; discriminate).
    repeat constructor; eexists; reflexivity.
Defined.

(** ** The batch driver *)

Lemma preserves_generateTypescriptInterfaces (options : Options) :
  preservesRegistry (TsIndex.generateTypescriptInterfaces options).
Proof. unfold TsIndex.generateTypescriptInterfaces. auto 20 with frame. Qed.

Lemma mapM_app_ok {A B} (f : A -> M B) (l1 l2 : list A) (s s1 : Store) (done : list B) :
  mapM f l1 s = (Ok done, s1) ->
  mapM f (l1 ++ l2) s =
    match mapM f l2 s1 with
    | (Ok more, s2) => (Ok (done ++ more), s2)
    | (Throw e, s2) => (Throw e, s2)
    end.
Proof.
  revert s done. induction l1 as [|x l1 IH]; intros s done Hrun.
  - simpl in Hrun. unfold ret in Hrun. injection Hrun as <- <-. simpl.
    now destruct (mapM f l2 s) as [[more|e] s2].
  - simpl in *. unfold bind at 1 in Hrun. unfold bind at 1.
    destruct (f x s) as [[y|e] sx]; [|discriminate Hrun].
    unfold bind at 1 in Hrun. unfold bind at 1.
    destruct (mapM f l1 sx) as [[ys|e] s'] eqn:Hrest; [|discriminate Hrun].
    unfold ret in Hrun. injection Hrun as <- <-.
    rewrite (IH _ _ Hrest).
    now destruct (mapM f l2 s') as [[more|e] s2].
Qed.



(** X8: with no collection requested the run returns a single line feed,
    resolver or not, and its context is empty. *)
Theorem empty_request (options : Options) (s : Store) :
  collections options = [] ->
  TsIndex.generateTypescriptInterfaces options s =
    (Ok Js.nl,
     {| registry := registry s; referencedImports := []; console := console s |}).
Proof.
  intros Hnone. unfold TsIndex.generateTypescriptInterfaces.
  unfold bind at 1, newContext. rewrite Hnone. simpl.
  unfold bind, ret, readReferencedImports. simpl.
  unfold TsIndex.generateTypescriptImports.
  destruct (generateImport options); reflexivity.
Qed.

Lemma empty_request_witness :
  fst (TsIndex.generateTypescriptInterfaces
         {| autoPkType := PkInt; fieldTypeMap := None; collections := [];
            generateImport := Some (fun collectionName => "./" +:+ collectionName);
            skipTypes := None |} sampleStore) = Ok Js.nl.
Proof. rewrite empty_request; reflexivity. Defined.

Lemma requested_declarations_same (options : Options) (names : list string)
    (s1 s2 : Store) :
  registry s1 = registry s2 ->
  referencedImports s1 = referencedImports s2 ->
  fst (mapM (TsIndex.generateRequested options) names s1)
    = fst (mapM (TsIndex.generateRequested options) names s2) /\
  referencedImports (snd (mapM (TsIndex.generateRequested options) names s1))
    = referencedImports (snd (mapM (TsIndex.generateRequested options) names s2)).
Proof.
  revert s1 s2. induction names as [|collectionName names IH]; intros s1 s2 Hreg Hrefs.
  - simpl. now split.
  - simpl. unfold bind at 1 3 5 7.
    unfold TsIndex.generateRequested at 1 3 5 7. unfold bind at 1 3 5 7, readCollection.
    rewrite Hreg.
    destruct (registry s2 !! collectionName) as [collectionDefinition|].
    2:{ unfold throw. simpl. now split. }
    destruct (generateTypescriptInterface_cases collectionDefinition options)
      as [(d & Hok)|(e & Hthrow)].
    + rewrite !Hok.
      destruct (IH (afterParameters collectionDefinition s1)
                  (afterParameters collectionDefinition s2)) as [Hfst Hsnd].
      { simpl. exact Hreg. }
      { simpl. now rewrite Hrefs. }
      unfold bind.
      destruct (mapM (TsIndex.generateRequested options) names
                  (afterParameters collectionDefinition s1)) as [[ds1|e1] t1];
      destruct (mapM (TsIndex.generateRequested options) names
                  (afterParameters collectionDefinition s2)) as [[ds2|e2] t2];
      simpl in *; try discriminate Hfst; split; try congruence.
    + rewrite !Hthrow. simpl. now split.
Qed.

Lemma generateTypescriptInterfaces_same (options : Options) (s1 s2 : Store) :
  registry s1 = registry s2 ->
  fst (TsIndex.generateTypescriptInterfaces options s1)
    = fst (TsIndex.generateTypescriptInterfaces options s2).
Proof.
  intros Hreg. unfold TsIndex.generateTypescriptInterfaces.
  unfold bind at 1 4, newContext. unfold bind at 1 3.
  destruct (requested_declarations_same options (collections options)
              {| registry := registry s1; referencedImports := []; console := console s1 |}
              {| registry := registry s2; referencedImports := []; console := console s2 |})
    as [Hfst Hsnd]; [exact Hreg | reflexivity |].
  destruct (mapM (TsIndex.generateRequested options) (collections options)
              {| registry := registry s1; referencedImports := []; console := console s1 |})
    as [[ds1|e1] t1];
  destruct (mapM (TsIndex.generateRequested options) (collections options)
              {| registry := registry s2; referencedImports := []; console := console s2 |})
    as [[ds2|e2] t2];
  simpl in Hfst, Hsnd; try discriminate Hfst.
  - unfold bind, readReferencedImports, ret. simpl. congruence.
  - simpl. congruence.
Qed.

(** X7: every run starts from a context of its own: what a run returns or
    throws is decided by the options and the registry alone, not by the
    references or the console lines left by an earlier run, and a run
    repeated on the store that the first one leaves gives the same
    outcome. *)
Theorem fresh_context_per_run (options : Options) (s : Store) :
  (forall s2, registry s2 = registry s ->
     fst (TsIndex.generateTypescriptInterfaces options s2)
       = fst (TsIndex.generateTypescriptInterfaces options s)) /\
  fst (TsIndex.generateTypescriptInterfaces options
         (snd (TsIndex.generateTypescriptInterfaces options s)))
    = fst (TsIndex.generateTypescriptInterfaces options s).
Proof.
  split.
  - intros s2 Hreg. now apply generateTypescriptInterfaces_same.
  - apply generateTypescriptInterfaces_same.
    apply preserves_generateTypescriptInterfaces.
Qed.

Lemma fresh_context_per_run_witness :
  fst (TsIndex.generateTypescriptInterfaces importOptions
         {| registry := registry sampleStore;
            referencedImports := ["stale"];
            console := ["earlier warning"] |})
    = fst (TsIndex.generateTypescriptInterfaces importOptions sampleStore).
Proof.
  apply (proj1 (fresh_context_per_run importOptions sampleStore)). reflexivity.
Defined.

(** ** The header function on its own *)

Lemma relationshipFieldsLoop_unsupported (collectionName : string)
    (before after : list Relationship) (acc : list string) (s : Store) :
  Forall supported before ->
  TsIndex.relationshipFieldsLoop collectionName (before ++ OtherRelationship :: after) acc s =
    (Throw (Error ("Unsupported relationship type detected in collection "
                     +:+ collectionName)),
     {| registry := registry s;
        referencedImports :=
          addAll (map targetCollection (childOfOnly before)) (referencedImports s);
        console := console s ++ forwardWarnings collectionName before |}).
Proof.
  intros H. revert acc s.
  induction H as [|r l Hr Hl IH]; intros acc s.
  - simpl. unfold throw, forwardWarnings. simpl. rewrite app_nil_r.
    now rewrite store_eta.
  - destruct r as [c|c|].
    + simpl. unfold bind, addReferencedImport. rewrite IH. reflexivity.
    + simpl. unfold bind, consoleWarn. rewrite IH. simpl.
      unfold forwardWarnings. simpl. rewrite <- app_assoc. reflexivity.
    + now destruct Hr.
Qed.

Lemma reverseRelationshipFieldsLoop_unsupported (collectionName : string)
    (before after : list Relationship) (acc : list string) (s : Store) :
  Forall supported before ->
  TsIndex.reverseRelationshipFieldsLoop collectionName
    (before ++ OtherRelationship :: after) acc s =
    (Throw (Error ("Unsupported reverse relationship type detected in collection "
                     +:+ collectionName +:+ " ")),
     {| registry := registry s;
        referencedImports :=
          addAll (map sourceCollection (childOfOnly before)) (referencedImports s);
        console := console s ++ reverseWarnings collectionName before |}).
Proof.
  intros H. revert acc s.
  induction H as [|r l Hr Hl IH]; intros acc s.
  - simpl. unfold throw, reverseWarnings. simpl. rewrite app_nil_r.
    now rewrite store_eta.
  - destruct r as [c|c|].
    + simpl. unfold bind, addReferencedImport. rewrite IH. reflexivity.
    + simpl. unfold bind, consoleWarn. rewrite IH. simpl.
      unfold reverseWarnings. simpl. rewrite <- app_assoc. reflexivity.
    + now destruct Hr.
Qed.

(** X9: [generateTypescriptInterfaceParameters], called on its own, is not
    all or nothing. At the first relationship that is neither child-of nor
    connects it throws the error naming the collection, and the context
    keeps the references, and the console the warnings, of the
    relationships visited before it: the forward ones up to that point, or
    all the forward ones and the reverse ones up to that point. *)
Theorem interface_parameters_partial_effect
    (collectionDefinition : CollectionDefinition) (options : Options) (s : Store)
    (before after : list Relationship) :
  Forall supported before ->
  (relationships collectionDefinition = before ++ OtherRelationship :: after ->
   TsIndex.generateTypescriptInterfaceParameters collectionDefinition options s =
     (Throw (Error ("Unsupported relationship type detected in collection "
                      +:+ name collectionDefinition)),
      {| registry := registry s;
         referencedImports :=
           addAll (map targetCollection (childOfOnly before)) (referencedImports s);
         console := console s ++ forwardWarnings (name collectionDefinition) before |})) /\
  (Forall supported (relationships collectionDefinition) ->
   reverseRelationships collectionDefinition = before ++ OtherRelationship :: after ->
   TsIndex.generateTypescriptInterfaceParameters collectionDefinition options s =
     (Throw (Error ("Unsupported reverse relationship type detected in collection "
                      +:+ name collectionDefinition +:+ " ")),
      {| registry := registry s;
         referencedImports :=
           addAll (map targetCollection (childOfOnly (relationships collectionDefinition)) ++
                   map sourceCollection (childOfOnly before))
                  (referencedImports s);
         console := console s ++
                    forwardWarnings (name collectionDefinition)
                      (relationships collectionDefinition) ++
                    reverseWarnings (name collectionDefinition) before |})).
Proof.
  intros Hbefore. split.
  - intros Hrels. unfold TsIndex.generateTypescriptInterfaceParameters.
    rewrite Hrels.
    replace (TsIndex.isEmpty (before ++ OtherRelationship :: after)) with false
      by (now destruct before).
    rewrite andb_false_l. unfold bind.
    now rewrite (relationshipFieldsLoop_unsupported _ _ _ _ _ Hbefore).
  - intros Hfwd Hrev. unfold TsIndex.generateTypescriptInterfaceParameters.
    assert (Hnonempty : TsIndex.isEmpty (reverseRelationshipsByAlias collectionDefinition)
                        = false).
    { unfold reverseRelationships in Hrev.
      destruct (reverseRelationshipsByAlias collectionDefinition); [|reflexivity].
      now destruct before. }
    rewrite Hnonempty, andb_false_r. unfold bind.
    rewrite (relationshipFieldsLoop_run _ _ _ _ Hfwd).
    fold (reverseRelationships collectionDefinition). rewrite Hrev.
    rewrite (reverseRelationshipFieldsLoop_unsupported _ _ _ _ _ Hbefore). simpl.
    now rewrite addAll_app, <- app_assoc.
Qed.

Lemma interface_parameters_partial_effect_witness :
  TsIndex.generateTypescriptInterfaceParameters
    {| name := "bar"; pkIndex := PkField "id"; fields := [];
       relationships := [ChildOfRelationship barChildOfFoo; OtherRelationship];
       reverseRelationshipsByAlias := [] |}
    (plainOptions PkInt ["bar"])
    {| registry := ∅; referencedImports := []; console := [] |}
  = (Throw (Error "Unsupported relationship type detected in collection bar"),
     {| registry := ∅; referencedImports := ["foo"]; console := [] |}).
Proof.
  assert (Hbefore : Forall supported [ChildOfRelationship barChildOfFoo]).
  { constructor; [discriminate | constructor]. }
  destruct (interface_parameters_partial_effect
              {| name := "bar"; pkIndex := PkField "id"; fields := [];
                 relationships := [ChildOfRelationship barChildOfFoo; OtherRelationship];
                 reverseRelationshipsByAlias := [] |}
              (plainOptions PkInt ["bar"])
              {| registry := ∅; referencedImports := []; console := [] |}
              [ChildOfRelationship barChildOfFoo] [] Hbefore) as [Hfwd _].
  rewrite Hfwd; reflexivity.
Defined.

(** ** The default table *)

Lemma default_lookup (kind : string) :
  DEFAULT_FIELD_TYPE_MAP !! kind =
    if decide ("string" = kind) then Some "string"
    else if decide ("text" = kind) then Some "string"
    else if decide ("json" = kind) then Some "any"
    else if decide ("datetime" = kind) then Some "Date"
    else if decide ("timestamp" = kind) then Some "number"
    else if decide ("boolean" = kind) then Some "boolean"
    else if decide ("float" = kind) then Some "number"
    else if decide ("int" = kind) then Some "number"
    else None.
Proof.
  unfold DEFAULT_FIELD_TYPE_MAP. simpl.
  rewrite !lookup_insert, lookup_empty. reflexivity.
Qed.

Lemma default_lookup_listed (kind : string) :
  kind ∈ ["string"; "text"; "json"; "datetime"; "timestamp"; "boolean"; "float"; "int"] ->
  exists t,
    DEFAULT_FIELD_TYPE_MAP !! kind = Some t /\
    Js.truthy (Some t) = true /\
    t ∈ ["string"; "any"; "Date"; "number"; "boolean"].
Proof.
  rewrite !elem_of_cons, elem_of_nil.
  intros [->|[->|[->|[->|[->|[->|[->|[->|[]]]]]]]]];
    eexists; (split; [reflexivity|]); (split; [reflexivity|]);
    rewrite !elem_of_cons; tauto.
Qed.

Lemma default_lookup_unlisted (kind : string) :
  kind ∉ ["string"; "text"; "json"; "datetime"; "timestamp"; "boolean"; "float"; "int"] ->
  DEFAULT_FIELD_TYPE_MAP !! kind = None.
Proof.
  rewrite !not_elem_of_cons. intros (H1 & H2 & H3 & H4 & H5 & H6 & H7 & H8 & _).
  rewrite default_lookup.
  repeat (case_decide; [congruence|]). reflexivity.
Qed.

Ltac not_listed :=
  let H := fresh in
  intros H; apply list_elem_of_In in H; vm_compute in H; intuition discriminate.

Lemma inherited_unlisted (kind : string) :
  kind ∈ Js.objectPrototypeNames ->
  (kind ∉ ["string"; "text"; "json"; "datetime"; "timestamp"; "boolean"; "float"; "int"]) /\
  (Js.inheritedText kind ∉ ["string"; "any"; "Date"; "number"; "boolean"]).
Proof.
  unfold Js.objectPrototypeNames. intros Hin.
  rewrite !elem_of_cons, elem_of_nil in Hin. revert Hin.
  intros [->|[->|[->|[->|[->|[->|[->|[->|[->|[->|[->|[->|[]]]]]]]]]]]]];
    split; not_listed.
Qed.

(** X10: with no [fieldTypeMap], a kind other than [auto-pk] resolves to a
    type name of the default table, [string], [any], [Date], [number] or
    [boolean], exactly when it is one of the table's eight kinds; a kind
    that is a name every object inherits, such as [constructor], is not
    reported but resolves to the inherited member; the unresolved-type error
    is thrown exactly for the kinds that are neither, [foreign-key]
    included. *)
Theorem default_table_coverage
    (fieldDefinition : CollectionField) (options : Options)
    (collectionDefinition : CollectionDefinition) (fieldName : string) :
  fieldTypeMap options = None ->
  type fieldDefinition <> "auto-pk" ->
  ((exists t,
      getTypescriptFieldType fieldDefinition options collectionDefinition fieldName
        = Ok (Some t) /\
      t ∈ ["string"; "any"; "Date"; "number"; "boolean"])
   <-> type fieldDefinition ∈
         ["string"; "text"; "json"; "datetime"; "timestamp"; "boolean"; "float"; "int"]) /\
  (type fieldDefinition ∈ Js.objectPrototypeNames ->
   getTypescriptFieldType fieldDefinition options collectionDefinition fieldName
     = Ok (Some (Js.inheritedText (type fieldDefinition)))) /\
  (getTypescriptFieldType fieldDefinition options collectionDefinition fieldName
     = Throw (Error (unresolvedTypeMessage (type fieldDefinition)
                       (name collectionDefinition) fieldName))
   <-> (type fieldDefinition ∉
          ["string"; "text"; "json"; "datetime"; "timestamp"; "boolean"; "float"; "int"]) /\
       (type fieldDefinition ∉ Js.objectPrototypeNames)).
Proof.
  intros Hmap Hkind. unfold getTypescriptFieldType, effectiveTypeMap.
  rewrite Hmap, (eqb_auto_pk_false _ Hkind).
  destruct (decide (type fieldDefinition ∈
    ["string"; "text"; "json"; "datetime"; "timestamp"; "boolean"; "float"; "int"]))
    as [Hin|Hout].
  - destruct (default_lookup_listed _ Hin) as (t & Hlookup & Htruthy & Ht).
    unfold Js.get. rewrite Hlookup, Htruthy. simpl. split; [split|split].
    + intros _. exact Hin.
    + intros _. now exists t.
    + intros Hinh. apply inherited_unlisted in Hinh as [Hnot _]. contradiction.
    + split; [discriminate|]. intros [Hnot _]. contradiction.
  - unfold Js.get. rewrite (default_lookup_unlisted _ Hout).
    destruct (bool_decide (type fieldDefinition ∈ Js.objectPrototypeNames)) eqn:Hinh.
    + apply bool_decide_eq_true in Hinh.
      rewrite inheritedText_truthy. simpl. split; [split|split].
      * intros (t & Ht & Hfive). injection Ht as <-.
        apply inherited_unlisted in Hinh as [_ Hnot]. contradiction.
      * intros Hin. contradiction.
      * reflexivity.
      * split; [discriminate|]. intros [_ Hnot]. contradiction.
    + apply bool_decide_eq_false in Hinh. simpl. split; [split|split].
      * intros (t & H & _). discriminate H.
      * intros Hin. contradiction.
      * intros Hin. contradiction.
      * split; [intros _; now split | reflexivity].
Qed.

Lemma default_table_coverage_witness :
  getTypescriptFieldType (field "datetime") (plainOptions PkInt ["test"]) testCollection
    "createdWhen" = Ok (Some "Date") /\
  getTypescriptFieldType (field "constructor") (plainOptions PkInt ["test"]) testCollection
    "made" = Ok (Some "function Object() { [native code] }") /\
  getTypescriptFieldType (field "foreign-key") (plainOptions PkInt ["test"]) testCollection
    "fooRel" = Throw (Error (unresolvedTypeMessage "foreign-key" "test" "fooRel")).
Proof.
  assert (H1 : type (field "datetime") <> "auto-pk") by (simpl; discriminate).
  assert (H2 : type (field "constructor") <> "auto-pk") by (simpl; discriminate).
  assert (H3 : type (field "foreign-key") <> "auto-pk") by (simpl; discriminate).
  destruct (default_table_coverage (field "datetime") (plainOptions PkInt ["test"])
              testCollection "createdWhen" eq_refl H1) as ([_ Hin] & _ & _).
  destruct (default_table_coverage (field "constructor") (plainOptions PkInt ["test"])
              testCollection "made" eq_refl H2) as (_ & Hinherited & _).
  destruct (default_table_coverage (field "foreign-key") (plainOptions PkInt ["test"])
              testCollection "fooRel" eq_refl H3) as (_ & _ & [_ Hout]).
  split; [|split].
  - destruct Hin as (t & Ht & _).
    + simpl. rewrite !elem_of_cons. tauto.
    + rewrite Ht. vm_compute in Ht. injection Ht as <-. reflexivity.
  - rewrite Hinherited; [reflexivity|].
    simpl. unfold Js.objectPrototypeNames. rewrite !elem_of_cons. tauto.
  - apply Hout. split; not_listed.
Defined.

(** ** The batch driver of [src/unnamed/part_000] *)

Lemma flat_requested_declarations (options : Options) (names : list string)
    (s s' : Store) (declarations : list string) :
  mapM (Part000.generateRequested options) names s = (Ok declarations, s') ->
  s' = s /\
  Forall2 (fun collectionName declaration =>
             exists collectionDefinition,
               registry s !! collectionName = Some collectionDefinition /\
               Part000.generateTypescriptInterface collectionDefinition options
                 = Ok declaration)
          names declarations.
Proof.
  revert declarations. induction names as [|collectionName names IH];
    intros declarations Hrun.
  - simpl in Hrun. unfold ret in Hrun. injection Hrun as <- <-. split; constructor.
  - simpl in Hrun. unfold bind at 1 in Hrun.
    unfold Part000.generateRequested at 1 in Hrun.
    unfold bind at 1, readCollection in Hrun.
    destruct (registry s !! collectionName) as [collectionDefinition|] eqn:Hfound;
      [|discriminate Hrun].
    unfold lift in Hrun.
    destruct (Part000.generateTypescriptInterface collectionDefinition options)
      as [declaration|e] eqn:Hone; [|discriminate Hrun].
    unfold bind at 1 in Hrun.
    destruct (mapM (Part000.generateRequested options) names s)
      as [[rest|e] s1] eqn:Hrest; [|discriminate Hrun].
    unfold ret in Hrun. injection Hrun as <- <-.
    destruct (IH _ eq_refl) as [-> Hall].
    split; [reflexivity|].
    constructor; [|exact Hall]. now exists collectionDefinition.
Qed.

(** X11: the flat generator never emits an import statement: nothing in it
    writes to the context, so a run that returns gives the declarations of
    the requested collections, joined by blank lines and closed by a line
    feed, and leaves the context empty; a run gives the same outcome with
    the import resolver taken out of the options. *)
Theorem flat_generator_never_imports (options : Options) (s : Store) :
  (forall out s',
     Part000.generateTypescriptInterfaces options s = (Ok out, s') ->
     referencedImports s' = [] /\
     exists declarations,
       out = Js.join (Js.nl +:+ Js.nl) declarations +:+ Js.nl /\
       Forall2 (fun collectionName declaration =>
                  exists collectionDefinition,
                    registry s !! collectionName = Some collectionDefinition /\
                    Part000.generateTypescriptInterface collectionDefinition options
                      = Ok declaration)
               (collections options) declarations) /\
  fst (Part000.generateTypescriptInterfaces options s)
    = fst (Part000.generateTypescriptInterfaces (withoutResolver options) s).
Proof.
  split.
  - intros out s' Hrun.
    unfold Part000.generateTypescriptInterfaces in Hrun.
    unfold bind at 1, newContext in Hrun. unfold bind at 1 in Hrun.
    destruct (mapM (Part000.generateRequested options) (collections options)
                {| registry := registry s; referencedImports := []; console := console s |})
      as [[declarations|e] s1] eqn:Hmap; [|discriminate Hrun].
    destruct (flat_requested_declarations _ _ _ _ _ Hmap) as [-> Hall].
    unfold bind, readReferencedImports, ret in Hrun. simpl in Hrun.
    unfold Part000.generateTypescriptImports in Hrun.
    assert (Hout : out = Js.join (Js.nl +:+ Js.nl) declarations +:+ Js.nl).
    { destruct (generateImport options); now injection Hrun as <- _. }
    assert (Hs : referencedImports s' = []).
    { destruct (generateImport options); now injection Hrun as _ <-. }
    split; [exact Hs|]. exists declarations. split; [exact Hout | exact Hall].
  - unfold Part000.generateTypescriptInterfaces.
    unfold bind at 1 4, newContext. unfold bind at 1 3.
    change (collections (withoutResolver options)) with (collections options).
    change (Part000.generateRequested (withoutResolver options))
      with (Part000.generateRequested options).
    destruct (mapM (Part000.generateRequested options) (collections options)
                {| registry := registry s; referencedImports := []; console := console s |})
      as [[declarations|e] s1] eqn:Hmap; [|reflexivity].
    destruct (flat_requested_declarations _ _ _ _ _ Hmap) as [-> _].
    unfold bind, readReferencedImports, ret. simpl.
    unfold Part000.generateTypescriptImports.
    now destruct (generateImport options).
Qed.

Lemma flat_generator_never_imports_witness :
  fst (Part000.generateTypescriptInterfaces importOptions sampleStore)
    = Ok ("export type Bar =" +:+ Js.nl +:+
          "    { id : number } &" +:+ Js.nl +:+
          "    {" +:+ Js.nl +:+
          "        eggs : string" +:+ Js.nl +:+
          "    }" +:+ Js.nl).
Proof.
  rewrite (proj2 (flat_generator_never_imports importOptions sampleStore)).
  vm_compute. reflexivity.
Defined.

(** ** The first generator: the primary key comes first *)

Lemma arrayFindIndex_middle {A} (p : A -> bool) (before after : list A) (x : A) :
  Forall (fun a => p a = false) before -> p x = true ->
  arrayFindIndex p (before ++ x :: after) = Some (length before).
Proof.
  intros Hbefore Hx. induction Hbefore as [|a before Ha _ IH]; simpl.
  - now rewrite Hx.
  - now rewrite Ha, IH.
Qed.

Lemma arrayFindIndex_none {A} (p : A -> bool) (l : list A) :
  Forall (fun a => p a = false) l -> arrayFindIndex p l = None.
Proof.
  induction 1 as [|a l Ha _ IH]; simpl; [reflexivity|]. now rewrite Ha, IH.
Qed.

Lemma not_named (pk : string) (l : list (string * CollectionField)) :
  pk ∉ map fst l -> Forall (fun pair => String.eqb (fst pair) pk = false) l.
Proof.
  intros Hnot. apply Forall_forall. intros pair Hin.
  apply String.eqb_neq. intros Heq. apply Hnot.
  apply list_elem_of_In, in_map_iff. exists pair. split; [exact Heq|].
  now apply list_elem_of_In.
Qed.

(** X12: [sortFieldPairs] moves the pair of the primary-key field to the
    front and keeps the other pairs in their order, so the result holds the
    same pairs as the fields it was given. *)
Theorem sortFieldPairs_pk_first
    (collectionDefinition : CollectionDefinition) (pk : string)
    (before after : list (string * CollectionField)) (fieldDefinition : CollectionField) :
  pkIndex collectionDefinition = PkField pk ->
  pk ∉ map fst before ->
  Oldest.sortFieldPairs (before ++ (pk, fieldDefinition) :: after) collectionDefinition
    = Ok (map Some ((pk, fieldDefinition) :: before ++ after)) /\
  (pk, fieldDefinition) :: before ++ after ≡ₚ before ++ (pk, fieldDefinition) :: after.
Proof.
  intros Hpk Hnot. split; [|apply Permutation_middle].
  unfold Oldest.sortFieldPairs. rewrite Hpk.
  rewrite (arrayFindIndex_middle _ before after (pk, fieldDefinition));
    [| now apply not_named | apply String.eqb_refl].
  rewrite list_lookup_middle by reflexivity.
  now rewrite delete_middle.
Qed.

Lemma sortFieldPairs_pk_first_witness :
  Oldest.sortFieldPairs
    [("fieldString", field "string"); ("id", field "auto-pk"); ("count", field "int")]
    testCollection
  = Ok [Some ("id", field "auto-pk"); Some ("fieldString", field "string");
        Some ("count", field "int")].
Proof.
  destruct (sortFieldPairs_pk_first testCollection "id"
              [("fieldString", field "string")] [("count", field "int")]
              (field "auto-pk") eq_refl) as [Hsorted _].
  - simpl. rewrite list_elem_of_singleton. discriminate.
  - exact Hsorted.
Defined.

(** X13: when no field has the name of the primary key, [sortFieldPairs]
    does not fail: it drops the last field and puts [undefined] in front,
    and [generateTypescriptInterface] then throws a [TypeError] on it
    instead of returning a declaration. *)
Theorem missing_pk_field_type_error
    (collectionDefinition : CollectionDefinition) (options : Options) (pk : string) :
  pkIndex collectionDefinition = PkField pk ->
  pk ∉ map fst (fields collectionDefinition) ->
  Oldest.sortFieldPairs (fields collectionDefinition) collectionDefinition
    = Ok (None :: map Some (removelast (fields collectionDefinition))) /\
  exists message,
    Oldest.generateTypescriptInterface collectionDefinition options
      = Throw (TypeError message).
Proof.
  intros Hpk Hnot.
  assert (Hsorted :
    Oldest.sortFieldPairs (fields collectionDefinition) collectionDefinition
      = Ok (None :: map Some (removelast (fields collectionDefinition)))).
  { unfold Oldest.sortFieldPairs. rewrite Hpk.
    now rewrite (arrayFindIndex_none _ _ (not_named _ _ Hnot)). }
  split; [exact Hsorted|].
  eexists. unfold Oldest.generateTypescriptInterface. rewrite Hsorted. reflexivity.
Qed.

Lemma missing_pk_field_type_error_witness :
  Oldest.sortFieldPairs [("spam", field "string"); ("eggs", field "string")]
    {| name := "foo"; pkIndex := PkField "id";
       fields := [("spam", field "string"); ("eggs", field "string")];
       relationships := []; reverseRelationshipsByAlias := [] |}
  = Ok [None; Some ("spam", field "string")].
Proof.
  destruct (missing_pk_field_type_error
              {| name := "foo"; pkIndex := PkField "id";
                 fields := [("spam", field "string"); ("eggs", field "string")];
                 relationships := []; reverseRelationshipsByAlias := [] |}
              (plainOptions PkInt ["foo"]) "id" eq_refl) as [Hsorted _].
  - simpl. rewrite !not_elem_of_cons. repeat split; try discriminate.
    apply not_elem_of_nil.
  - exact Hsorted.
Defined.

(** ** The generator of [src/unnamed/part_001] against the later one *)

Lemma part001_loop_child_of (collectionName : string) (l : list Relationship)
    (acc : list string) :
  Forall (fun r => isChildOfRelationship r = true) l ->
  Part001.relationshipFieldsLoop collectionName l acc
    = Ok (acc ++ map TsIndex.quoted (map alias (childOfOnly l))).
Proof.
  intros H. revert acc. induction H as [|r l Hr _ IH]; intros acc.
  - simpl. now rewrite app_nil_r.
  - destruct r as [c|c|]; try discriminate Hr.
    simpl. rewrite IH, <- app_assoc. reflexivity.
Qed.

Lemma part001_loop_other (collectionName : string) (l : list Relationship)
    (acc : list string) (relationship : Relationship) :
  In relationship l -> isChildOfRelationship relationship = false ->
  Part001.relationshipFieldsLoop collectionName l acc
    = Throw (Error ("Unsupported relationship type detected in collection "
                      +:+ collectionName)).
Proof.
  intros Hin Hnot. revert acc. induction l as [|r l IH]; intros acc; [destruct Hin|].
  destruct r as [c|c|]; try reflexivity.
  destruct Hin as [<-|Hin]; [discriminate Hnot|]. simpl. now apply IH.
Qed.

Lemma part001_lines_child_of (options : Options)
    (collectionDefinition : CollectionDefinition) (l : list Relationship) :
  Forall (fun r => isChildOfRelationship r = true) l ->
  map_throwing
    (fun relationship =>
       Part001.generateTypescriptRelationship relationship options collectionDefinition) l
    = Ok (map (forwardLine (autoPkType options)) (childOfOnly l)).
Proof.
  induction 1 as [|r l Hr _ IH]; [reflexivity|].
  destruct r as [c|c|]; try discriminate Hr.
  simpl. rewrite IH. reflexivity.
Qed.

Lemma part001_lines_other (options : Options)
    (collectionDefinition : CollectionDefinition) (l : list Relationship)
    (relationship : Relationship) :
  In relationship l -> isChildOfRelationship relationship = false ->
  map_throwing
    (fun relationship =>
       Part001.generateTypescriptRelationship relationship options collectionDefinition) l
    = Throw (Error ("Unsupported relationship type detected in collection "
                      +:+ name collectionDefinition)).
Proof.
  intros Hin Hnot. induction l as [|r l IH]; [destruct Hin|].
  destruct r as [c|c|]; try reflexivity.
  destruct Hin as [<-|Hin]; [discriminate Hnot|]. simpl. now rewrite IH.
Qed.

(** X14: in the generator of [src/unnamed/part_001] a connects relationship
    is fatal, like any relationship that is not child-of: the header
    function throws the error naming the collection, and so does the
    generation of the collection once its primary-key line and its field
    lines are produced. *)
Theorem part001_connects_fatal
    (collectionDefinition : CollectionDefinition) (options : Options)
    (relationship : Relationship) :
  In relationship (relationships collectionDefinition) ->
  isChildOfRelationship relationship = false ->
  Part001.generateTypescriptInterfaceParameters collectionDefinition options
    = Throw (Error ("Unsupported relationship type detected in collection "
                      +:+ name collectionDefinition)) /\
  ((exists pk, pkIndex collectionDefinition = PkField pk) ->
   (exists fieldLines,
      map_throwing
        (fun pair =>
           Part001.generateTypescriptField (snd pair) options collectionDefinition
             (fst pair))
        (fields collectionDefinition) = Ok fieldLines) ->
   Part001.generateTypescriptInterface collectionDefinition options
     = Throw (Error ("Unsupported relationship type detected in collection "
                       +:+ name collectionDefinition))).
Proof.
  intros Hin Hnot. split.
  - unfold Part001.generateTypescriptInterfaceParameters.
    destruct (relationships collectionDefinition) as [|r rs] eqn:Hrels; [destruct Hin|].
    simpl TsIndex.isEmpty. cbv iota.
    now rewrite (part001_loop_other _ _ _ _ Hin Hnot).
  - intros (pk & Hpk) (fieldLines & Hfields).
    unfold Part001.generateTypescriptInterface, Part001.generateTypescriptOptionalPk.
    rewrite Hpk. simpl obind. rewrite Hfields. simpl obind.
    now rewrite (part001_lines_other _ _ _ _ Hin Hnot).
Qed.

Lemma part001_connects_fatal_witness :
  Part001.generateTypescriptInterface tagLinkCollection (plainOptions PkInt ["tagLink"])
    = Throw (Error "Unsupported relationship type detected in collection tagLink").
Proof.
  destruct (part001_connects_fatal tagLinkCollection (plainOptions PkInt ["tagLink"])
              (ConnectsRelationship ("post", "tag"))) as [_ Hfatal].
  - simpl. auto.
  - reflexivity.
  - rewrite Hfatal; [reflexivity | exists "id"; reflexivity | eexists; reflexivity].
Defined.

Lemma join_singleton (sep x : string) : Js.join sep [x] = x.
Proof. reflexivity. Qed.

Lemma child_of_supported (l : list Relationship) :
  Forall (fun r => isChildOfRelationship r = true) l -> Forall supported l.
Proof.
  intros Hall. eapply Forall_impl; [exact Hall|].
  intros [c|c|] H; try discriminate H. discriminate.
Qed.

Lemma part001_header (collectionDefinition : CollectionDefinition) (options : Options) :
  Forall (fun r => isChildOfRelationship r = true) (relationships collectionDefinition) ->
  reverseRelationshipsByAlias collectionDefinition = [] ->
  Part001.generateTypescriptInterfaceParameters collectionDefinition options
    = Ok ("<" +:+ Js.join ", " (declaredParameters collectionDefinition) +:+ ">").
Proof.
  intros Hchild Hrev.
  unfold Part001.generateTypescriptInterfaceParameters, declaredParameters,
    reverseAliases, reverseRelationships, forwardAliases.
  rewrite Hrev.
  destruct (relationships collectionDefinition) as [|r rs] eqn:Hrels; [reflexivity|].
  simpl TsIndex.isEmpty. cbv iota.
  rewrite (part001_loop_child_of _ _ _ Hchild), app_nil_l. simpl obind.
  destruct r as [c|c|];
    try (exfalso; inversion Hchild as [|? ? Hr _]; discriminate Hr).
  simpl childOfOnly. unfold expansionSwitch.
  change (map TsIndex.quoted (map alias (c :: childOfOnly rs)) ++ ["null"])
    with ((TsIndex.quoted (alias c) :: map TsIndex.quoted (map alias (childOfOnly rs)))
            ++ ["null"]).
  change (map reverseAlias []) with (@nil string). cbv iota. rewrite app_nil_r.
  rewrite (join_app " | ") by discriminate.
  rewrite join_cons_cons, !join_singleton, !append_assoc. reflexivity.
Qed.

Lemma block_if_any (lines : list string) :
  blockIfAny (inIndentedBlock lines) =
    if TsIndex.isEmpty lines then []
    else ["{" +:+ Js.nl +:+ indent (Js.join Js.nl lines) +:+ Js.nl +:+ "}"].
Proof. destruct lines; reflexivity. Qed.

Lemma part001_pk_line (collectionDefinition : CollectionDefinition) (options : Options) :
  autoPkType options <> PkGeneric ->
  Part001.generateTypescriptOptionalPk collectionDefinition options
    = TsIndex.generateTypescriptOptionalPk collectionDefinition options.
Proof.
  intros Hgen.
  unfold Part001.generateTypescriptOptionalPk, TsIndex.generateTypescriptOptionalPk.
  destruct (autoPkType options); [reflexivity | reflexivity | contradiction].
Qed.

(** X15: on the collections that the generator of [src/unnamed/part_001]
    handles as intended (child-of relationships only, no reverse
    relationship, the strategy [string] or [int], at least one field kept in
    the field block) the generator of [src/ts/index.ts] returns the same
    declaration, or throws the same error. *)
Theorem later_generator_agrees
    (collectionDefinition : CollectionDefinition) (options : Options) (s : Store) :
  Forall (fun r => isChildOfRelationship r = true) (relationships collectionDefinition) ->
  reverseRelationshipsByAlias collectionDefinition = [] ->
  autoPkType options <> PkGeneric ->
  (forall fieldLines,
     emittedFieldLines options collectionDefinition = Ok fieldLines ->
     keepLines fieldLines <> []) ->
  fst (TsIndex.generateTypescriptInterface collectionDefinition options s)
    = Part001.generateTypescriptInterface collectionDefinition options.
Proof.
  intros Hchild Hrev Hgen Hkept.
  unfold Part001.generateTypescriptInterface.
  rewrite (part001_pk_line _ _ Hgen).
  change (map_throwing
            (fun pair =>
               Part001.generateTypescriptField (snd pair) options collectionDefinition
                 (fst pair))
            (fields collectionDefinition))
    with (emittedFieldLines options collectionDefinition).
  destruct (TsIndex.generateTypescriptOptionalPk collectionDefinition options)
    as [pkLine|e] eqn:Hpk.
  2:{ unfold TsIndex.generateTypescriptInterface, bind, lift. now rewrite Hpk. }
  destruct (emittedFieldLines options collectionDefinition) as [fieldLines|e] eqn:Hfields.
  2:{ unfold TsIndex.generateTypescriptInterface, bind, lift.
      unfold emittedFieldLines in Hfields. now rewrite Hpk, Hfields. }
  assert (Hrevs : reverseRelationships collectionDefinition = []).
  { unfold reverseRelationships. now rewrite Hrev. }
  rewrite (generateTypescriptInterface_run _ _ _ _ _ Hpk Hfields
             (child_of_supported _ Hchild)) by (rewrite Hrevs; constructor).
  simpl. rewrite (part001_lines_child_of _ _ _ Hchild), (part001_header _ _ Hchild Hrev).
  simpl. unfold declarationOf. rewrite Hrevs, !block_if_any. simpl.
  specialize (Hkept fieldLines eq_refl).
  destruct (keepLines fieldLines) as [|line lines]; [contradiction|].
  rewrite app_nil_r.
  destruct (map (forwardLine (autoPkType options))
              (childOfOnly (relationships collectionDefinition))); reflexivity.
Qed.

Lemma later_generator_agrees_witness :
  fst (TsIndex.generateTypescriptInterface barCollection (plainOptions PkInt ["bar"])
         sampleStore)
    = Part001.generateTypescriptInterface barCollection (plainOptions PkInt ["bar"]).
Proof.
  apply later_generator_agrees.
  - constructor; [reflexivity | constructor].
  - reflexivity.
  - simpl. discriminate.
  - intros fieldLines H. vm_compute in H. injection H as <-. vm_compute. discriminate.
Defined.

(** ** When generation returns *)

Lemma map_throwing_ok_iff {A B} (f : A -> Outcome B) (l : list A) :
  (exists l', map_throwing f l = Ok l') <-> Forall (fun a => exists b, f a = Ok b) l.
Proof.
  induction l as [|x l IH]; simpl.
  - split; [constructor | now exists []].
  - split.
    + intros (l' & H). destruct (f x) as [y|e] eqn:Hx; [|discriminate H].
      destruct (map_throwing f l) as [ys|e] eqn:Hl; [|discriminate H].
      constructor; [now exists y|]. apply IH. now exists ys.
    + intros H. apply Forall_cons in H as [(y & Hy) Hl].
      apply IH in Hl as (ys & Hys). exists (y :: ys). now rewrite Hy, Hys.
Qed.

Lemma field_emitted_iff (options : Options) (collectionDefinition : CollectionDefinition)
    (pair : string * CollectionField) :
  (exists line,
     TsIndex.generateTypescriptField (snd pair) options collectionDefinition (fst pair)
       = Ok line)
  <-> fieldResolves options collectionDefinition pair.
Proof.
  unfold TsIndex.generateTypescriptField, fieldResolves, getTypescriptFieldType.
  destruct (String.eqb (type (snd pair)) "foreign-key") eqn:Hfk.
  { apply String.eqb_eq in Hfk. split; [now left | now eexists]. }
  destruct (isPkField (pkIndex collectionDefinition) (fst pair)) eqn:Hpk.
  { apply isPkField_true in Hpk. split; [now right; left | now eexists]. }
  destruct (String.eqb (type (snd pair)) "auto-pk") eqn:Hauto.
  { apply String.eqb_eq in Hauto. split; [now right; right; left | now eexists]. }
  apply String.eqb_neq in Hfk. apply String.eqb_neq in Hauto.
  destruct (Js.truthy (Js.get (effectiveTypeMap options) (type (snd pair)))) eqn:Htruthy;
    simpl.
  - split; [now right; right; right | now eexists].
  - split.
    + intros (line & H). discriminate H.
    + intros [H|[H|[H|H]]]; try contradiction; try discriminate H.
      apply isPkField_true in H. congruence.
Qed.

Lemma generable_iff (options : Options) (collectionDefinition : CollectionDefinition)
    (s : Store) :
  (exists declaration s',
     TsIndex.generateTypescriptInterface collectionDefinition options s
       = (Ok declaration, s'))
  <-> generable options collectionDefinition.
Proof.
  split.
  - intros (d & s' & Hrun). unfold generable.
    destruct (pkIndex collectionDefinition) as [pk|l] eqn:Hpk.
    2:{ unfold TsIndex.generateTypescriptInterface, bind, lift,
          TsIndex.generateTypescriptOptionalPk in Hrun.
        rewrite Hpk in Hrun. discriminate Hrun. }
    assert (Hpkline : exists pkLine,
              TsIndex.generateTypescriptOptionalPk collectionDefinition options = Ok pkLine).
    { unfold TsIndex.generateTypescriptOptionalPk. rewrite Hpk. now eexists. }
    destruct Hpkline as (pkLine & Hpkline).
    destruct (emittedFieldLines options collectionDefinition) as [fieldLines|e] eqn:Hfields.
    2:{ unfold TsIndex.generateTypescriptInterface, bind, lift in Hrun.
        unfold emittedFieldLines in Hfields. rewrite Hpkline, Hfields in Hrun.
        discriminate Hrun. }
    destruct (supported_or_other (relationships collectionDefinition)) as [Hfwd|Hfwd].
    2:{ rewrite (generateTypescriptInterface_unsupported_forward
                   _ _ _ _ _ Hpkline Hfields Hfwd) in Hrun. discriminate Hrun. }
    destruct (supported_or_other (reverseRelationships collectionDefinition))
      as [Hrev|Hrev].
    2:{ rewrite (generateTypescriptInterface_unsupported_reverse
                   _ _ _ _ _ Hpkline Hfields Hfwd Hrev) in Hrun. discriminate Hrun. }
    repeat split; eauto.
  - intros Hgen. destruct (generateTypescriptInterface_returns _ _ s Hgen) as (d & Hd).
    eauto.
Qed.

(** X16: when generation returns. A collection is generated exactly when
    its primary-key index is a field name, every field is omitted, of kind
    [auto-pk], or of a kind that reads as a truthy value in the type map in
    use (a non-empty own entry, or an inherited member such as
    [constructor]), and every forward and reverse relationship is child-of
    or connects; a batch returns its text exactly when every requested name
    is registered with such a collection. *)
Theorem generation_returns_iff (options : Options) (s : Store) :
  (forall collectionDefinition,
     (exists declaration s',
        TsIndex.generateTypescriptInterface collectionDefinition options s
          = (Ok declaration, s'))
     <-> (exists pk, pkIndex collectionDefinition = PkField pk) /\
         Forall (fieldResolves options collectionDefinition)
           (fields collectionDefinition) /\
         Forall supported (relationships collectionDefinition) /\
         Forall supported (reverseRelationships collectionDefinition)) /\
  ((exists out s', TsIndex.generateTypescriptInterfaces options s = (Ok out, s'))
   <-> Forall (fun collectionName =>
                 exists collectionDefinition,
                   registry s !! collectionName = Some collectionDefinition /\
                   generable options collectionDefinition)
              (collections options)).
Proof.
  split.
  - intros collectionDefinition. rewrite generable_iff. unfold generable.
    unfold emittedFieldLines. rewrite map_throwing_ok_iff.
    assert (Hfields :
      Forall (fun pair =>
                exists line,
                  TsIndex.generateTypescriptField (snd pair) options collectionDefinition
                    (fst pair) = Ok line) (fields collectionDefinition)
      <-> Forall (fieldResolves options collectionDefinition)
            (fields collectionDefinition)).
    { split; intros H; (eapply Forall_impl; [exact H|]); intros pair Hp;
        now apply field_emitted_iff. }
    rewrite Hfields. reflexivity.
  - split.
    + intros (out & s' & Hrun).
      unfold TsIndex.generateTypescriptInterfaces in Hrun.
      unfold bind at 1, newContext in Hrun. unfold bind at 1 in Hrun.
      destruct (mapM (TsIndex.generateRequested options) (collections options)
                  {| registry := registry s; referencedImports := [];
                     console := console s |})
        as [[declarations|e] s1] eqn:Hmap; [|discriminate Hrun].
      destruct (requested_declarations _ _ _ _ _ Hmap)
        as (definitions & Hdefs & Hdecls & _ & _).
      simpl in Hdefs. clear Hmap Hrun.
      revert declarations Hdecls.
      induction Hdefs as [|n cd names defs Hfound _ IH]; intros declarations Hdecls;
        [constructor|].
      apply Forall2_cons_inv_l in Hdecls as (d & ds & (s0 & Hone) & Hrest & ->).
      constructor; [|now apply (IH ds)].
      exists cd. split; [exact Hfound|]. apply (generable_iff options cd s0). eauto.
    + apply generateTypescriptInterfaces_returns.
Qed.

Lemma generation_returns_iff_witness :
  exists out s',
    TsIndex.generateTypescriptInterfaces (plainOptions PkInt ["foo"; "bar"]) sampleStore
      = (Ok out, s').
Proof.
  apply (proj2 (generation_returns_iff (plainOptions PkInt ["foo"; "bar"]) sampleStore)).
  constructor; [|constructor; [|constructor]].
  - exists fooCollection. split; [reflexivity|].
    split; [exists "id"; reflexivity|].
    split; [eexists; reflexivity|].
    split; [constructor|].
    constructor; [discriminate | constructor].
  - exists barCollection. split; [reflexivity|].
    split; [exists "id"; reflexivity|].
    split; [eexists; reflexivity|].
    split; [|constructor].
    constructor; [discriminate | constructor].
Defined.

(** ** The warnings of a batch *)

Lemma requested_console (options : Options) (names : list string)
    (s s' : Store) (declarations : list string) (definitions : list CollectionDefinition) :
  mapM (TsIndex.generateRequested options) names s = (Ok declarations, s') ->
  Forall2 (fun collectionName collectionDefinition =>
             registry s !! collectionName = Some collectionDefinition)
          names definitions ->
  console s' = console s ++ flat_map warningsOf definitions.
Proof.
  revert s declarations definitions.
  induction names as [|collectionName names IH]; intros s declarations definitions Hrun Hdefs.
  - apply Forall2_nil_inv_l in Hdefs as ->.
    simpl in Hrun. unfold ret in Hrun. injection Hrun as <- <-.
    simpl. now rewrite app_nil_r.
  - apply Forall2_cons_inv_l in Hdefs as (cd & defs & Hfound & Hdefs & ->).
    simpl in Hrun. unfold bind at 1 in Hrun.
    unfold TsIndex.generateRequested at 1 in Hrun.
    unfold bind at 1, readCollection in Hrun. rewrite Hfound in Hrun.
    destruct (TsIndex.generateTypescriptInterface cd options s)
      as [[declaration|e] s1] eqn:Hone; [|discriminate Hrun].
    pose proof (generateTypescriptInterface_ok_store _ _ _ _ _ Hone) as Hs1.
    unfold bind at 1 in Hrun.
    destruct (mapM (TsIndex.generateRequested options) names s1)
      as [[rest|e] s2] eqn:Hrest; [|discriminate Hrun].
    unfold ret in Hrun. injection Hrun as <- <-.
    rewrite (IH s1 rest defs Hrest).
    + rewrite Hs1. simpl. unfold warningsOf at 2. now rewrite <- !app_assoc.
    + eapply Forall2_impl; [exact Hdefs|]. intros n d H. now rewrite Hs1.
Qed.

(** X17: a batch that returns has written, after the lines the console held
    before, one warning for each connects relationship of each requested
    collection, in the order of the request, for each collection the forward
    warnings and then the reverse ones. *)
Theorem batch_warnings (options : Options) (s s' : Store) (out : string)
    (definitions : list CollectionDefinition) :
  TsIndex.generateTypescriptInterfaces options s = (Ok out, s') ->
  Forall2 (fun collectionName collectionDefinition =>
             registry s !! collectionName = Some collectionDefinition)
          (collections options) definitions ->
  console s' = console s ++ flat_map warningsOf definitions /\
  length (flat_map warningsOf definitions) =
    length (flat_map (fun collectionDefinition =>
                        connectsOnly (relationships collectionDefinition) ++
                        connectsOnly (reverseRelationships collectionDefinition))
                     definitions).
Proof.
  intros Hrun Hdefs. split.
  - unfold TsIndex.generateTypescriptInterfaces in Hrun.
    unfold bind at 1, newContext in Hrun. unfold bind at 1 in Hrun.
    destruct (mapM (TsIndex.generateRequested options) (collections options)
                {| registry := registry s; referencedImports := []; console := console s |})
      as [[declarations|e] s1] eqn:Hmap; [|discriminate Hrun].
    unfold bind, readReferencedImports, ret in Hrun. injection Hrun as _ <-.
    now rewrite (requested_console _ _ _ _ _ _ Hmap Hdefs).
  - clear. induction definitions as [|cd defs IH]; [reflexivity|].
    simpl. rewrite !length_app, IH. unfold warningsOf, forwardWarnings, reverseWarnings.
    now rewrite !length_app, !length_map.
Qed.

Lemma batch_warnings_witness :
  console
    (snd (TsIndex.generateTypescriptInterfaces (plainOptions PkInt ["tagLink"])
            {| registry := {[ "tagLink" := tagLinkCollection ]};
               referencedImports := [];
               console := ["earlier line"] |}))
  = ["earlier line";
     "Warning: 'connects' relationships are not supported yet, skipping one in collection tagLink"].
Proof.
  destruct (TsIndex.generateTypescriptInterfaces (plainOptions PkInt ["tagLink"])
              {| registry := {[ "tagLink" := tagLinkCollection ]};
                 referencedImports := [];
                 console := ["earlier line"] |}) as [[out|e] s'] eqn:Hrun;
    [|vm_compute in Hrun; discriminate Hrun].
  destruct (batch_warnings _ _ _ _ [tagLinkCollection] Hrun) as [Hconsole _].
  - constructor; [reflexivity | constructor].
  - simpl snd. rewrite Hconsole. reflexivity.
Defined.

(** A kind that is an inherited name is not reported: the field line shows
    the inherited member. *)
Example field_of_inherited_kind :
  TsIndex.generateTypescriptField (field "constructor") (plainOptions PkInt ["test"])
    testCollection "made"
    = Ok (Some "made : function Object() { [native code] }").
Proof. reflexivity. Qed.
